(** * Cribl-Microsoft: the AD lookup sync (main.py) and the Power BI search
      connector (PowerBI_CriblSearch.py), shallowly embedded. *)

From stdpp Require Import base gmap strings list.
From Stdlib Require Import ZArith Ascii String.
Open Scope string_scope.

(** ** Python exceptions and a small error monad *)

Inductive exn :=
| ValueError (msg : string)
| TypeError (msg : string)
| AttributeError (msg : string)
| KeyError (key : string)
| IndexError
| RequestException (msg : string)
| InterpolationError (msg : string)  (* configparser.InterpolationError *)
| OSError (msg : string)
| LDAPException (msg : string)       (* ldap3.core.exceptions.LDAPException *)
| SearchJobFailed.            (* raise Exception("Search job failed") *)

(** [requests.exceptions.RequestException] and its subclasses. *)
Definition is_request_exception (e : exn) : bool :=
  match e with RequestException _ => true | _ => false end.

Inductive pyres (A : Type) :=
| Ok (a : A)
| Raise (e : exn).
Arguments Ok {A} a.
Arguments Raise {A} e.

Global Instance pyres_ret : MRet pyres := fun A a => Ok a.
Global Instance pyres_bind : MBind pyres := fun A B f m =>
  match m with Ok a => f a | Raise e => Raise e end.

(** ** Python string operations on [string] (code points 0..255) *)

Module PyStr.

(** [str.isspace] on the Latin-1 range. *)
Definition is_space (c : ascii) : bool :=
  let n := nat_of_ascii c in
  (((9 <=? n) && (n <=? 13)) || ((28 <=? n) && (n <=? 32)) || (n =? 133) || (n =? 160))%nat.

Fixpoint lstrip (s : string) : string :=
  match s with
  | EmptyString => EmptyString
  | String c s' => if is_space c then lstrip s' else s
  end.

Fixpoint rev_app (s acc : string) : string :=
  match s with
  | EmptyString => acc
  | String c s' => rev_app s' (String c acc)
  end.

Definition rev (s : string) : string := rev_app s EmptyString.

Definition rstrip (s : string) : string :=
  rev (lstrip (rev s)).

(** [s.strip()] *)
Definition strip (s : string) : string := rstrip (lstrip s).

(** [c in s] for a one-character [c] *)
Fixpoint contains (c : ascii) (s : string) : bool :=
  match s with
  | EmptyString => false
  | String d s' => if decide (c = d) then true else contains c s'
  end.

(** [s.split(c, 1)] when [c in s]: the text before and after the first [c]. *)
Fixpoint split_once (c : ascii) (s : string) : option (string * string) :=
  match s with
  | EmptyString => None
  | String d s' =>
      if decide (c = d) then Some (EmptyString, s')
      else match split_once c s' with
           | Some (a, b) => Some (String d a, b)
           | None => None
           end
  end.

(** [s.split(c)]: always at least one piece. *)
Fixpoint split (c : ascii) (s : string) : list string :=
  match s with
  | EmptyString => [EmptyString]
  | String d s' =>
      if decide (c = d) then EmptyString :: split c s'
      else match split c s' with
           | a :: rest => String d a :: rest
           | [] => [String d EmptyString]
           end
  end.

(** [sep.join(l)] *)
Fixpoint join (sep : string) (l : list string) : string :=
  match l with
  | [] => EmptyString
  | [a] => a
  | a :: rest => a +:+ sep +:+ join sep rest
  end.

(** [s.startswith(p)] *)
Fixpoint startswith (s p : string) : bool :=
  match p, s with
  | EmptyString, _ => true
  | String c p', String d s' => if decide (c = d) then startswith s' p' else false
  | String _ _, EmptyString => false
  end.

(** [s.endswith(p)] *)
Definition endswith (s p : string) : bool :=
  startswith (rev s) (rev p).

(** Truthiness of a [str]: [not s] is [s == ""]. *)
Definition truthy (s : string) : bool :=
  match s with EmptyString => false | _ => true end.

(** [a or b] on strings *)
Definition or (a b : string) : string := if truthy a then a else b.

End PyStr.

Definition at_sign : ascii := "@".
Definition backslash : ascii := Ascii.ascii_of_nat 92.
Definition slash : ascii := "/".
Definition newline : ascii := Ascii.ascii_of_nat 10.
Definition dot : ascii := ".".

(** ** main.py: [parse_ad_user] (lines 102-128) *)

Definition parse_ad_user (ad_user0 ad_domain : string) : pyres (string * string) :=
  if negb (PyStr.truthy ad_user0) then
    Raise (ValueError "AD user must be specified in config or arguments")
  else
  let ad_user := PyStr.strip ad_user0 in
  if PyStr.contains at_sign ad_user then
    match PyStr.split_once at_sign ad_user with
    | Some (username, user_domain) =>
        if negb (PyStr.truthy username) then
          Raise (ValueError ("Invalid AD user format: " +:+ ad_user +:+ ". Username cannot be empty."))
        else Ok (username, PyStr.or user_domain ad_domain)
    | None => Raise (ValueError "not enough values to unpack")
    end
  else if PyStr.contains backslash ad_user || PyStr.contains slash ad_user then
    let separator := if PyStr.contains backslash ad_user then backslash else slash in
    match PyStr.split_once separator ad_user with
    | Some (user_domain, username) =>
        if negb (PyStr.truthy username) then
          Raise (ValueError ("Invalid AD user format: " +:+ ad_user +:+ ". Username cannot be empty."))
        else Ok (username, PyStr.or user_domain ad_domain)
    | None => Raise (ValueError "not enough values to unpack")
    end
  else if negb (PyStr.truthy ad_domain) then
    Raise (ValueError ("AD domain must be specified when using plain username: " +:+ ad_user))
  else Ok (ad_user, ad_domain).

(** A [ValueError] is what [query_ad_users] reports as a configuration
    error before [exit(1)]. *)
Definition is_config_error {A} (r : pyres A) : bool :=
  match r with Raise (ValueError _) => true | _ => false end.

Definition netbios_joe : string := String "D" (String "O" (String "M" (String backslash "joe"))).
Definition netbios_empty_domain : string := String backslash "joe".

(** ** main.py: [load_config] (lines 78-99), configparser semantics *)

Module ConfigParser.

(** [str.lower] (configparser's [optionxform]) on the Latin-1 range. *)
Definition lower_char (c : ascii) : ascii :=
  let n := nat_of_ascii c in
  if (((65 <=? n) && (n <=? 90)) || ((192 <=? n) && (n <=? 222) && negb (n =? 215)))%nat
  then ascii_of_nat (n + 32)%nat else c.

Fixpoint lower (s : string) : string :=
  match s with
  | EmptyString => EmptyString
  | String c s' => String (lower_char c) (lower s')
  end.

(** [BasicInterpolation._KEYCRE = r"%\(([^)]+)\)s"], matched after "%(":
    the name and the text after ")s". *)
Fixpoint scan_key (s : string) : option (string * string) :=
  match s with
  | EmptyString => None
  | String c s' =>
      if decide (c = ")"%char) then None
      else match s' with
           | String d (String e rest) =>
               if decide (d = ")"%char) then
                 if decide (e = "s"%char) then Some (String c EmptyString, rest)
                 else None
               else match scan_key s' with
                    | Some (name, rest') => Some (String c name, rest')
                    | None => None
                    end
           | _ => match scan_key s' with
                  | Some (name, rest') => Some (String c name, rest')
                  | None => None
                  end
           end
  end.

Definition MAX_INTERPOLATION_DEPTH : nat := 10.

(** The scanning loop of [BasicInterpolation._interpolate_some]; [rec]
    interpolates a referenced value one level deeper, [budget] bounds the
    scan (the text shrinks at every step). *)
Fixpoint interp_loop (rec : string -> pyres string) (sec : gmap string string)
    (budget : nat) (rest : string) : pyres string :=
  match budget with
  | O => Ok rest
  | S b =>
    match rest with
    | EmptyString => Ok EmptyString
    | String c r =>
      if decide (c = "%"%char) then
        match r with
        | String "%" r' => t ← interp_loop rec sec b r'; Ok (String "%" t)
        | String "(" r' =>
            match scan_key r' with
            | None => Raise (InterpolationError "bad interpolation variable reference")
            | Some (var, r'') =>
                match sec !! lower var with
                | None => Raise (InterpolationError "InterpolationMissingOptionError")
                | Some v =>
                    v' ← (if PyStr.contains "%" v then rec v else Ok v);
                    t ← interp_loop rec sec b r'';
                    Ok (v' +:+ t)
                end
            end
        | _ => Raise (InterpolationError "'%' must be followed by '%' or '('")
        end
      else t ← interp_loop rec sec b r; Ok (String c t)
    end
  end.

(** [BasicInterpolation._interpolate_some]: [depth] as in the source,
    [fuel] bounds the nesting (the depth check fires first). *)
Fixpoint interpolate_some (fuel depth : nat) (sec : gmap string string)
    (rest0 : string) : pyres string :=
  if (MAX_INTERPOLATION_DEPTH <? depth)%nat then
    Raise (InterpolationError "InterpolationDepthError")
  else match fuel with
  | O => Raise (InterpolationError "InterpolationDepthError")
  | S fuel' =>
      interp_loop (interpolate_some fuel' (S depth) sec) sec (S (length rest0)) rest0
  end.

(** [section[key]]: [BasicInterpolation.before_get] on the stored value. *)
Definition get (sec : gmap string string) (key : string) : pyres string :=
  match sec !! lower key with
  | None => Raise (KeyError key)
  | Some raw => interpolate_some (S MAX_INTERPOLATION_DEPTH) 1 sec raw
  end.

End ConfigParser.

Definition defaults : gmap string string :=
  list_to_map [("client_id", ""); ("client_secret", ""); ("organization_id", "");
               ("lookup_filename", ""); ("target_worker_group", "default");
               ("ad_server", ""); ("ad_user", ""); ("ad_password", "");
               ("ad_domain", ""); ("ad_search_domain", "")].

(** [load_config]: [file] is the [cribl] section of the config file, keys
    already lowercased by configparser, or [None] when the path does not
    exist. [config.read] overrides the defaults read first. *)
Definition load_config (file : option (gmap string string)) : gmap string string :=
  match file with
  | Some sec => sec ∪ defaults
  | None => defaults
  end.

(** The argparse namespace: an option not given on the command line is [None]. *)
Module Args.
Record t := mk {
  client_id : option string;
  client_secret : option string;
  organization_id : option string;
  lookup_filename : option string;
  ad_server : option string;
  ad_user : option string;
  ad_password : option string;
  ad_domain : option string;
  ad_search_domain : option string;
  target_group : option string }.
End Args.

(** The values [main] works with after step 2. *)
Module Settings.
Record t := mk {
  client_id : string;
  client_secret : string;
  organization_id : string;
  lookup_filename : string;
  target_worker_group : string;
  ad_server : string;
  ad_user : string;
  ad_password : string;
  ad_domain : string;
  ad_search_domain : string }.
End Settings.

(** [args.x or config["k"]]: [config["k"]] is only read when [args.x] is falsy. *)
Definition arg_or (a : option string) (config : gmap string string) (k : string) : pyres string :=
  match a with
  | Some v => if PyStr.truthy v then Ok v else ConfigParser.get config k
  | None => ConfigParser.get config k
  end.

(** [main], steps 1-2 (lines 368-381). *)
Definition resolve_config (args : Args.t) (file : option (gmap string string)) : pyres Settings.t :=
  let config := load_config file in
  client_id ← arg_or (Args.client_id args) config "client_id";
  client_secret ← arg_or (Args.client_secret args) config "client_secret";
  organization_id ← arg_or (Args.organization_id args) config "organization_id";
  lookup_filename ← arg_or (Args.lookup_filename args) config "lookup_filename";
  target_worker_group ← arg_or (Args.target_group args) config "target_worker_group";
  ad_server ← arg_or (Args.ad_server args) config "ad_server";
  ad_user ← arg_or (Args.ad_user args) config "ad_user";
  ad_password ← arg_or (Args.ad_password args) config "ad_password";
  ad_domain ← arg_or (Args.ad_domain args) config "ad_domain";
  ad_search_domain ← arg_or (Args.ad_search_domain args) config "ad_search_domain";
  Ok (Settings.mk client_id client_secret organization_id lookup_filename
        target_worker_group ad_server ad_user ad_password ad_domain ad_search_domain).

(** The ten configuration fields, to state per-field properties. *)
Inductive field :=
| FClientId | FClientSecret | FOrganizationId | FLookupFilename | FTargetGroup
| FAdServer | FAdUser | FAdPassword | FAdDomain | FAdSearchDomain.

Definition all_fields : list field :=
  [FClientId; FClientSecret; FOrganizationId; FLookupFilename; FTargetGroup;
   FAdServer; FAdUser; FAdPassword; FAdDomain; FAdSearchDomain].

Definition cli_of (f : field) (a : Args.t) : option string :=
  match f with
  | FClientId => Args.client_id a | FClientSecret => Args.client_secret a
  | FOrganizationId => Args.organization_id a | FLookupFilename => Args.lookup_filename a
  | FTargetGroup => Args.target_group a | FAdServer => Args.ad_server a
  | FAdUser => Args.ad_user a | FAdPassword => Args.ad_password a
  | FAdDomain => Args.ad_domain a | FAdSearchDomain => Args.ad_search_domain a
  end.

Definition key_of (f : field) : string :=
  match f with
  | FClientId => "client_id" | FClientSecret => "client_secret"
  | FOrganizationId => "organization_id" | FLookupFilename => "lookup_filename"
  | FTargetGroup => "target_worker_group" | FAdServer => "ad_server"
  | FAdUser => "ad_user" | FAdPassword => "ad_password"
  | FAdDomain => "ad_domain" | FAdSearchDomain => "ad_search_domain"
  end.

Definition setting_of (f : field) (s : Settings.t) : string :=
  match f with
  | FClientId => Settings.client_id s | FClientSecret => Settings.client_secret s
  | FOrganizationId => Settings.organization_id s | FLookupFilename => Settings.lookup_filename s
  | FTargetGroup => Settings.target_worker_group s | FAdServer => Settings.ad_server s
  | FAdUser => Settings.ad_user s | FAdPassword => Settings.ad_password s
  | FAdDomain => Settings.ad_domain s | FAdSearchDomain => Settings.ad_search_domain s
  end.

(** The defaults the spec names: empty except the target group. *)
Definition default_of (f : field) : string :=
  match f with FTargetGroup => "default" | _ => "" end.

(** The precedence as the spec words it: a command-line value that is present
    wins, then the config file, then the default. *)
Definition spec_precedence (f : field) (a : Args.t) (file : option (gmap string string)) : string :=
  match cli_of f a with
  | Some v => v
  | None =>
      match file ≫= (fun sec => sec !! key_of f) with
      | Some v => v
      | None => default_of f
      end
  end.

(** The command-line value that [args.x or ...] keeps: a non-empty one. *)
Definition cli_override (f : field) (a : Args.t) : option string :=
  match cli_of f a with
  | Some v => if PyStr.truthy v then Some v else None
  | None => None
  end.

(** The raw text behind [config["k"]]: the config file's value when the file
    sets the key, else the default. *)
Definition file_raw (f : field) (file : option (gmap string string)) : string :=
  match file ≫= (fun sec => sec !! key_of f) with
  | Some v => v
  | None => default_of f
  end.

(** That text read through configparser's interpolation. *)
Definition read_field (f : field) (file : option (gmap string string)) : pyres string :=
  ConfigParser.interpolate_some (S ConfigParser.MAX_INTERPOLATION_DEPTH) 1 (load_config file)
    (file_raw f file).

(** ** JSON values as [json.loads] returns them *)

#[local] Set Warnings "-register-all".

(** Objects keep their keys in insertion order, as a Python dict; numbers are
    modelled by their integer value (floating literals are outside the model). *)
Inductive json :=
| JNull
| JBool (b : bool)
| JNum (z : Z)
| JStr (s : string)
| JArr (l : list json)
| JObj (kvs : list (string * json)).

(** [bool(v)] *)
Definition json_truthy (v : json) : bool :=
  match v with
  | JNull => false
  | JBool b => b
  | JNum z => negb (Z.eqb z 0)
  | JStr s => PyStr.truthy s
  | JArr l => match l with [] => false | _ => true end
  | JObj kvs => match kvs with [] => false | _ => true end
  end.

(** [d.get(k)] on a dict: [None] when the key is absent. *)
Fixpoint obj_get (kvs : list (string * json)) (k : string) : option json :=
  match kvs with
  | [] => None
  | (k', v) :: rest => if decide (k = k') then Some v else obj_get rest k
  end.

(** A reader for a subset of JSON (literals, integers, strings without
    escapes, arrays, objects), standing in for [json.loads] in examples. *)
Module MiniJson.

Definition quote : ascii := ascii_of_nat 34.

Definition is_ws (c : ascii) : bool :=
  let n := nat_of_ascii c in ((n =? 32) || (n =? 9) || (n =? 10) || (n =? 13))%nat.

Definition digit (c : ascii) : option Z :=
  let n := nat_of_ascii c in
  if ((48 <=? n) && (n <=? 57))%nat then Some (Z.of_nat (n - 48)) else None.

Fixpoint skip_ws (s : string) : string :=
  match s with
  | String c s' => if is_ws c then skip_ws s' else s
  | EmptyString => s
  end.

Fixpoint digits (acc : Z) (s : string) : Z * string :=
  match s with
  | String c s' => match digit c with Some d => digits (acc * 10 + d)%Z s' | None => (acc, s) end
  | EmptyString => (acc, s)
  end.

Fixpoint read_str (s : string) : option (string * string) :=
  match s with
  | EmptyString => None
  | String c s' =>
      if decide (c = quote) then Some (EmptyString, s')
      else if decide (c = backslash) then None
      else match read_str s' with
           | Some (t, r) => Some (String c t, r)
           | None => None
           end
  end.

Fixpoint value (fuel : nat) (s : string) : option (json * string) :=
  match fuel with
  | O => None
  | S f =>
    match skip_ws s with
    | EmptyString => None
    | String c r =>
      if decide (c = "n"%char) then
        match r with String "u" (String "l" (String "l" r')) => Some (JNull, r') | _ => None end
      else if decide (c = "t"%char) then
        match r with String "r" (String "u" (String "e" r')) => Some (JBool true, r') | _ => None end
      else if decide (c = "f"%char) then
        match r with
        | String "a" (String "l" (String "s" (String "e" r'))) => Some (JBool false, r')
        | _ => None
        end
      else if decide (c = quote) then
        match read_str r with Some (t, r') => Some (JStr t, r') | None => None end
      else if decide (c = "-"%char) then
        match r with
        | String d _ =>
            match digit d with
            | Some _ => let (z, r') := digits 0 r in Some (JNum (- z), r')
            | None => None
            end
        | EmptyString => None
        end
      else if decide (c = "["%char) then
        match skip_ws r with
        | String "]" r' => Some (JArr [], r')
        | _ => elems f r []
        end
      else if decide (c = "{"%char) then
        match skip_ws r with
        | String "}" r' => Some (JObj [], r')
        | _ => members f r []
        end
      else match digit c with
           | Some _ => let (z, r') := digits 0 (String c r) in Some (JNum z, r')
           | None => None
           end
    end
  end
with elems (fuel : nat) (s : string) (acc : list json) : option (json * string) :=
  match fuel with
  | O => None
  | S f =>
    match value f s with
    | Some (v, r) =>
        match skip_ws r with
        | String "," r' => elems f r' (acc ++ [v])%list
        | String "]" r' => Some (JArr (acc ++ [v])%list, r')
        | _ => None
        end
    | None => None
    end
  end
with members (fuel : nat) (s : string) (acc : list (string * json)) : option (json * string) :=
  match fuel with
  | O => None
  | S f =>
    match skip_ws s with
    | String c r =>
        if decide (c = quote) then
          match read_str r with
          | Some (k, r1) =>
              match skip_ws r1 with
              | String ":" r2 =>
                  match value f r2 with
                  | Some (v, r3) =>
                      match skip_ws r3 with
                      | String "," r4 => members f r4 (acc ++ [(k, v)])%list
                      | String "}" r4 => Some (JObj (acc ++ [(k, v)])%list, r4)
                      | _ => None
                      end
                  | None => None
                  end
              | _ => None
              end
          | None => None
          end
        else None
    | EmptyString => None
    end
  end.

Definition loads (s : string) : pyres json :=
  match value (S (length s)) s with
  | Some (v, rest) =>
      match skip_ws rest with
      | EmptyString => Ok v
      | _ => Raise (ValueError "Extra data")
      end
  | None => Raise (ValueError "Expecting value")
  end.

End MiniJson.

(** ** PowerBI_CriblSearch.py: NDJSON parsing (lines 100-106) *)

Section Ndjson.

(** [json.loads], from Python's standard library. *)
Variable json_loads : string -> pyres json.

(** [for line in lines: if line.strip(): parsed = json.loads(line);
    if parsed: results.append(parsed)] *)
Fixpoint parse_lines (results : list json) (lines : list string) : pyres (list json) :=
  match lines with
  | [] => Ok results
  | line :: rest =>
      if PyStr.truthy (PyStr.strip line) then
        parsed ← json_loads line;
        parse_lines (if json_truthy parsed then (results ++ [parsed])%list else results) rest
      else parse_lines results rest
  end.

Definition ndjson_lines (text : string) : list string :=
  PyStr.split newline (PyStr.strip text).

Definition parse_results (text : string) : pyres (list json) :=
  parse_lines [] (ndjson_lines text).

(** The line kinds the spec names. *)
Definition is_blank (line : string) : bool := negb (PyStr.truthy (PyStr.strip line)).

Definition line_kind_ok (line : string) : Prop :=
  is_blank line = true \/
  json_loads line = Ok (JObj []) \/
  exists kvs, kvs <> [] /\ json_loads line = Ok (JObj kvs).

(** The object a line contributes, per the spec: non-blank lines holding a
    non-empty object. *)
Definition nonempty_object (line : string) : option json :=
  if is_blank line then None
  else match json_loads line with
       | Ok (JObj (kv :: kvs)) => Some (JObj (kv :: kvs))
       | _ => None
       end.

(** The lines the spec excludes: blank lines and lines parsing to [{}]. *)
Definition empty_line (line : string) : bool :=
  is_blank line || match json_loads line with Ok (JObj []) => true | _ => false end.

End Ndjson.

(** ** PowerBI_CriblSearch.py: [df_temp.dropna(how='all')] (line 115) *)

(** A DataFrame cell: [NaN] where the record had no such key. *)
Inductive cell := NaN | Val (v : json).

(** [pd.isna]: missing values and [None]. *)
Definition isna (c : cell) : bool :=
  match c with NaN | Val JNull => true | Val _ => false end.

Record frame := Frame { columns : list string; rows : list (list cell) }.

(** [dropna(how='all')]: keep the rows with at least one non-NA value. *)
Definition dropna_all (df : frame) : frame :=
  Frame (columns df)
    (List.filter (fun r => (0 <? List.length (List.filter (fun c => negb (isna c)) r))%nat) (rows df)).

(** "Empty" in the everyday sense: missing, null, or an empty string, list
    or object. *)
Definition empty_field (c : cell) : bool :=
  match c with
  | NaN | Val JNull | Val (JStr EmptyString) | Val (JArr []) | Val (JObj []) => true
  | _ => false
  end.

(** ** main.py: HTTP calls *)

(** What a [requests] call yields: it raised (connection error, timeout, ...)
    or a response with a status code and a body, [None] when the body is not
    JSON. *)
Inductive http_result :=
| ConnectionFailed
| Response (status_code : Z) (body : option json).

(** [response.raise_for_status()] *)
Definition raise_for_status (r : http_result) : pyres unit :=
  match r with
  | ConnectionFailed => Raise (RequestException "ConnectionError")
  | Response code _ =>
      if ((400 <=? code) && (code <? 600))%Z then Raise (RequestException "HTTPError")
      else Ok tt
  end.

(** [response.json()]: a body that is not JSON raises
    [requests.exceptions.JSONDecodeError], a [RequestException]. *)
Definition response_json (r : http_result) : pyres json :=
  match r with
  | Response _ (Some data) => Ok data
  | _ => Raise (RequestException "JSONDecodeError")
  end.

(** [try: body except requests.exceptions.RequestException: return d] *)
Definition except_request {A} (d : A) (body : pyres A) : pyres A :=
  match body with
  | Raise e => if is_request_exception e then Ok d else Raise e
  | Ok a => Ok a
  end.

(** [sub in s] for strings *)
Fixpoint str_in (sub s : string) : bool :=
  PyStr.startswith s sub ||
  match s with EmptyString => false | String _ s' => str_in sub s' end.

(** [key in data] *)
Definition json_contains (key : string) (data : json) : pyres bool :=
  match data with
  | JObj kvs => Ok (bool_decide (is_Some (obj_get kvs key)))
  | JArr l => Ok (existsb (fun v => match v with JStr s => bool_decide (s = key) | _ => false end) l)
  | JStr s => Ok (str_in key s)
  | _ => Raise (TypeError "argument is not iterable")
  end.

(** [data[key]] for a string key *)
Definition json_getitem (data : json) (key : string) : pyres json :=
  match data with
  | JObj kvs => match obj_get kvs key with Some v => Ok v | None => Raise (KeyError key) end
  | JArr _ | JStr _ => Raise (TypeError "indices must be integers")
  | _ => Raise (TypeError "object is not subscriptable")
  end.

(** [data[0]] *)
Definition json_first (data : json) : pyres json :=
  match data with
  | JArr (x :: _) => Ok x
  | JArr [] => Raise IndexError
  | JStr (String c _) => Ok (JStr (String c EmptyString))
  | JStr EmptyString => Raise IndexError
  | JObj _ => Raise (KeyError "0")
  | _ => Raise (TypeError "object is not subscriptable")
  end.

(** [item.get(key)]: only dicts have [get]. *)
Definition json_get (item : json) (key : string) : pyres (option json) :=
  match item with
  | JObj kvs => Ok (obj_get kvs key)
  | _ => Raise (AttributeError "object has no attribute 'get'")
  end.

(** [for item in data] *)
Definition json_iter (data : json) : pyres (list json) :=
  match data with
  | JArr l => Ok l
  | JObj kvs => Ok (map (fun kv => JStr kv.1) kvs)
  | JStr s => Ok (map (fun c => JStr (String c EmptyString)) (list_ascii_of_string s))
  | _ => Raise (TypeError "object is not iterable")
  end.

(** [any(item.get("id") == lookup_filename for item in items)], short-circuiting. *)
Fixpoint any_id (lookup_filename : string) (items : list json) : pyres bool :=
  match items with
  | [] => Ok false
  | item :: rest =>
      id ← json_get item "id";
      if (match id with Some (JStr s) => bool_decide (s = lookup_filename) | _ => false end)
      then Ok true
      else any_id lookup_filename rest
  end.

(** [check_lookup_exists] (lines 216-234); [resp] answers the GET. *)
Definition check_lookup_exists (lookup_filename : string) (resp : http_result) : pyres bool :=
  except_request false (
    raise_for_status resp;;
    data ← response_json resp;
    if negb (json_truthy data) then Ok false else
    has_items ← json_contains "items" data;
    if negb has_items then Ok false else
    items ← json_getitem data "items";
    if negb (json_truthy items) then Ok false else
    l ← json_iter items;
    any_id lookup_filename l).

(** [lookup_filename.split('.')[0]] *)
Definition base_name (lookup_filename : string) : string :=
  match PyStr.split dot lookup_filename with b :: _ => b | [] => EmptyString end.

(** [temp_filename.startswith(prefix)]: only strings have [startswith]. *)
Definition json_startswith (v : json) (prefix : string) : pyres bool :=
  match v with
  | JStr s => Ok (PyStr.startswith s prefix)
  | _ => Raise (AttributeError "object has no attribute 'startswith'")
  end.

(** [upload_lookup_file] (lines 237-270); [file_opens] says whether
    [open_func(lookup_filename, 'rb')] succeeds, [resp] answers the PUT. *)
Definition upload_lookup_file (lookup_filename : string) (file_opens : bool)
    (resp : http_result) : pyres (option json) :=
  except_request None (
    if negb file_opens then Raise (OSError lookup_filename) else
    raise_for_status resp;;
    response_data ← response_json resp;
    temp ← json_get response_data "filename";
    match temp with
    | None => Ok None
    | Some temp_filename =>
        if negb (json_truthy temp_filename) then Ok None else
        ok ← json_startswith temp_filename (base_name lookup_filename);
        if negb ok then Ok None else Ok (Some temp_filename)
    end).

(** [create_lookup], [update_lookup], [deploy_changes]: [True] unless the
    request fails. *)
Definition request_succeeds (resp : http_result) : pyres bool :=
  except_request false (raise_for_status resp;; Ok true).

Definition create_lookup (resp : http_result) : pyres bool := request_succeeds resp.
Definition update_lookup (resp : http_result) : pyres bool := request_succeeds resp.
Definition deploy_changes (resp : http_result) : pyres bool := request_succeeds resp.

(** [commit_changes] (lines 316-344) *)
Definition commit_changes (resp : http_result) : pyres (option json) :=
  except_request None (
    raise_for_status resp;;
    response_data ← response_json resp;
    items ← json_getitem response_data "items";
    first ← json_first items;
    commit_id ← json_get first "commit";
    match commit_id with
    | Some c => if json_truthy c then Ok (Some c) else Ok None
    | None => Ok None
    end).

(** The requests [main] makes after obtaining the token. *)
Inductive api_call := CUpload | CCheck | CCreate | CUpdate | CCommit | CDeploy.

(** Where [main] goes after the existence check. *)
Inductive lookup_path := CreatePath | UpdatePath.

(** Step 6 of [main]: [if check_lookup_exists(...)] *)
Definition choose_path (exists_result : pyres bool) : pyres lookup_path :=
  match exists_result with
  | Ok b => Ok (if b then UpdatePath else CreatePath)
  | Raise e => Raise e
  end.

(** [main], steps 5-8 (lines 392-417): the calls made, in order, and the exit
    status ([exit(1)] and exceptions caught by the outer handler give 1). *)
Definition main_sync (lookup_filename : string) (file_opens : bool)
    (net : api_call -> http_result) : list api_call * Z :=
  match upload_lookup_file lookup_filename file_opens (net CUpload) with
  | Raise _ => ([CUpload], 1%Z)
  | Ok temp =>
    if negb (match temp with Some t => json_truthy t | None => false end) then ([CUpload], 1%Z) else
    match choose_path (check_lookup_exists lookup_filename (net CCheck)) with
    | Raise _ => ([CUpload; CCheck], 1%Z)
    | Ok path =>
      let '(call, written) :=
        match path with
        | UpdatePath => (CUpdate, update_lookup (net CUpdate))
        | CreatePath => (CCreate, create_lookup (net CCreate))
        end in
      match written with
      | Raise _ | Ok false => ([CUpload; CCheck; call], 1%Z)
      | Ok true =>
        match commit_changes (net CCommit) with
        | Raise _ | Ok None => ([CUpload; CCheck; call; CCommit], 1%Z)
        | Ok (Some _) =>
          match deploy_changes (net CDeploy) with
          | Ok true => ([CUpload; CCheck; call; CCommit; CDeploy], 0%Z)
          | _ => ([CUpload; CCheck; call; CCommit; CDeploy], 1%Z)
          end
        end
      end
    end
  end.

(** ** main.py: [query_ad_users] (lines 131-191) *)

(** An LDAP entry: the value of each requested attribute, [None] when the
    entry has none (the five attributes are single-valued in AD). *)
Record ad_entry := AdEntry {
  sAMAccountName : option string;
  DisplayName : option string;
  EmailAddress : option string;
  Department : option string;
  Title : option string }.

(** [entry.X.value or ''] *)
Definition value_or_empty (v : option string) : string :=
  match v with Some s => PyStr.or s "" | None => "" end.

Definition csv_header : list string :=
  ["sAMAccountName"; "DisplayName"; "EmailAddress"; "Department"; "Title"].

Definition csv_row (entry : ad_entry) : list string :=
  [value_or_empty (sAMAccountName entry); value_or_empty (DisplayName entry);
   value_or_empty (EmailAddress entry); value_or_empty (Department entry);
   value_or_empty (Title entry)].

(** [','.join(f"dc={component}" for component in search_domain.split('.'))] *)
Definition search_base_of (search_domain : string) : string :=
  PyStr.join "," (map (fun c => "dc=" +:+ c) (PyStr.split dot search_domain)).

(** What [query_ad_users] leaves behind: the CSV files written (name and
    rows) and [Some 1] when it called [exit(1)]. *)
Record query_outcome := QueryOutcome {
  files_written : list (string * list (list string));
  exit_status : option Z }.

Section QueryAd.

(** The directory server: what [conn.entries] holds after
    [Connection(Server(server), user=user, password=password, auto_bind=True)]
    and [conn.search(search_base, '(objectClass=user)', ...)]. A failed bind
    ([auto_bind=True] raises) or a communication error raises. A search the
    server answers with an error result does not raise (ldap3's default
    [raise_exceptions=False]: [search] returns [False], ignored by the code)
    and leaves no entries: [Ok []]. *)
Variable ldap_search : string -> string -> string -> string -> pyres (list ad_entry).

(** Whether [open(output_file, 'w', newline='')] succeeds. *)
Variable output_writable : bool.

(** The body of the [try] block. *)
Definition query_ad_users_body (ad_server ad_user ad_password ad_domain ad_search_domain
    output_file : string) : pyres (string * list (list string)) :=
  '(username, user_domain) ← parse_ad_user ad_user ad_domain;
  let full_username :=
    if PyStr.truthy user_domain then username +:+ "@" +:+ user_domain else username in
  let search_domain := PyStr.or ad_search_domain ad_domain in
  if negb (PyStr.truthy search_domain) then
    Raise (ValueError "AD domain or search domain must be specified in config or arguments") else
  let search_base := search_base_of search_domain in
  if negb (PyStr.truthy ad_server) then
    Raise (ValueError "AD server must be specified in config or arguments") else
  if negb (PyStr.truthy ad_password) then
    Raise (ValueError "AD password must be specified in config or arguments") else
  entries ← ldap_search ad_server full_username ad_password search_base;
  if negb output_writable then Raise (OSError output_file) else
  Ok (output_file, csv_header :: map csv_row entries).

(** [query_ad_users]: both handlers print and call [exit(1)]. *)
Definition query_ad_users (ad_server ad_user ad_password ad_domain ad_search_domain
    output_file : string) : query_outcome :=
  match query_ad_users_body ad_server ad_user ad_password ad_domain ad_search_domain output_file with
  | Ok file => QueryOutcome [file] None
  | Raise _ => QueryOutcome [] (Some 1%Z)
  end.

End QueryAd.

(** The five attribute values of an entry, in header order. *)
Definition entry_values (e : ad_entry) : list (option string) :=
  [sAMAccountName e; DisplayName e; EmailAddress e; Department e; Title e].

(** The results body of the spec's end-to-end scenario:
    {"a":1}, a blank line, {} and {"a":2}. *)
Definition sample_line (n : string) : string :=
  let q := String MiniJson.quote EmptyString in
  "{" +:+ q +:+ "a" +:+ q +:+ ":" +:+ n +:+ "}".

Definition sample_results : string :=
  let nl := String newline EmptyString in
  sample_line "1" +:+ nl +:+ nl +:+ "{}" +:+ nl +:+ sample_line "2".

(** A request that [requests] reports as failed: it raised, or
    [raise_for_status] does. *)
Definition request_failed (r : http_result) : Prop :=
  match r with
  | ConnectionFailed => True
  | Response code _ => (400 <= code < 600)%Z
  end.

(** A lookup catalog (a JSON object, its ["items"], when present, a list of
    lookup objects) none of whose items has the id [lookup_filename]. *)
Definition catalog_without (lookup_filename : string) (data : json) : Prop :=
  exists kvs, data = JObj kvs /\
    (obj_get kvs "items" = None \/
     exists l, obj_get kvs "items" = Some (JArr l) /\
       Forall (fun item => exists ikvs, item = JObj ikvs /\
                 obj_get ikvs "id" <> Some (JStr lookup_filename)) l).

(** The upload response's ["filename"] is absent or a string. *)
Definition filename_field_ok (kvs : list (string * json)) : Prop :=
  obj_get kvs "filename" = None \/ exists s, obj_get kvs "filename" = Some (JStr s).

(** The upload response names a temporary file [t] the spec accepts. *)
Definition good_temp (lookup_filename : string) (kvs : list (string * json)) (t : string) : Prop :=
  obj_get kvs "filename" = Some (JStr t) /\ t <> EmptyString /\
  PyStr.startswith t (base_name lookup_filename) = true.

(** ** PowerBI_CriblSearch.py: the job-status poll loop (lines 78-98) *)

Inductive poll_event :=
| GetStatus (attempt : nat)   (* GET .../search/jobs/{job_id} *)
| Sleep (secs : nat)          (* time.sleep(secs) *)
| GetResults.                 (* GET .../search/jobs/{job_id}/results *)

Definition max_attempts : nat := 60.

(** [requests.get(...)]: a connection failure raises; the response is not
    checked with [raise_for_status]. *)
Definition requests_get (r : http_result) : pyres http_result :=
  match r with
  | ConnectionFailed => Raise (RequestException "ConnectionError")
  | Response _ _ => Ok r
  end.

(** [status_response.json()["items"][0]["status"]] (lines 80-85): every step
    can raise ([RequestException], [KeyError], [IndexError], [TypeError]). *)
Definition job_status_of (status_resp : http_result) : pyres json :=
  r ← requests_get status_resp;
  data ← response_json r;
  items ← json_getitem data "items";
  item ← json_first items;
  json_getitem item "status".

Definition is_done (s : string) : bool :=
  bool_decide (s = "done") || bool_decide (s = "completed").

(** [job_status in ["done", "completed"]]: only those strings compare equal. *)
Definition status_done (v : json) : bool :=
  match v with JStr s => is_done s | _ => false end.

(** [job_status == "failed"] *)
Definition status_failed (v : json) : bool :=
  match v with JStr s => bool_decide (s = "failed") | _ => false end.

(** The [for attempt in range(max_attempts)] loop; [status_resp attempt]
    answers the status request of that attempt. *)
Fixpoint poll_loop (status_resp : nat -> http_result) (attempts : list nat)
    : list poll_event * pyres unit :=
  match attempts with
  | [] => ([], Ok tt)
  | attempt :: rest =>
      match job_status_of (status_resp attempt) with
      | Raise e => ([GetStatus attempt], Raise e)
      | Ok job_status =>
          if status_done job_status then ([GetStatus attempt], Ok tt)
          else if status_failed job_status then ([GetStatus attempt], Raise SearchJobFailed)
          else let '(tr, r) := poll_loop status_resp rest in
               (GetStatus attempt :: Sleep 2 :: tr, r)
      end
  end.

(** The loop followed by the results request of lines 95-98. *)
Definition wait_and_fetch (status_resp : nat -> http_result) (results_resp : http_result)
    : list poll_event * pyres http_result :=
  let '(tr, r) := poll_loop status_resp (seq 0 max_attempts) in
  match r with
  | Ok _ => ((tr ++ [GetResults])%list, requests_get results_resp)
  | Raise e => (tr, Raise e)
  end.

Definition is_check (e : poll_event) : bool :=
  match e with GetStatus _ => true | _ => false end.

(** [j] checks, each followed by a two-unit wait. *)
Definition poll_blocks (j : nat) : list poll_event :=
  flat_map (fun i => [GetStatus i; Sleep 2]) (seq 0 j).

Definition terminal (v : json) : bool := status_done v || status_failed v.

(** What one status check decides: [None] to poll again, or how the loop
    ends. *)
Definition check_outcome (status_resp : http_result) : option (pyres unit) :=
  match job_status_of status_resp with
  | Raise e => Some (Raise e)
  | Ok s =>
      if status_done s then Some (Ok tt)
      else if status_failed s then Some (Raise SearchJobFailed)
      else None
  end.

(** ** main.py: [get_bearer_token] (lines 194-213) *)

(** [resp] answers the POST to the token endpoint. The value returned is
    [response.json()["access_token"]], [JNull] standing for Python's [None]
    (what the handler returns, and what a JSON [null] token is). The
    [ValueError] is raised before the [try]; a missing ["access_token"] raises
    [KeyError], which the handler does not catch. *)
Definition get_bearer_token (client_id client_secret : string) (resp : http_result) : pyres json :=
  if negb (PyStr.truthy client_id) || negb (PyStr.truthy client_secret) then
    Raise (ValueError "CRIBL_CLIENT_ID and CRIBL_CLIENT_SECRET must be provided via arguments or configuration file.")
  else
    except_request JNull (
      raise_for_status resp;;
      data ← response_json resp;
      json_getitem data "access_token").

(** [token[:10]] in the message of step 4: only strings and lists can be
    sliced, anything else raises. *)
Definition json_slice (v : json) : pyres unit :=
  match v with
  | JStr _ | JArr _ => Ok tt
  | _ => Raise (TypeError "object is not subscriptable")
  end.

(** ** main.py: the commit payload, [Path(lookup_filename).with_suffix('.yml')] *)

Module PurePath.

(** [posixpath.splitroot]: the root ("", "/" or exactly "//") and the rest. *)
Definition splitroot (p : string) : string * string :=
  match p with
  | String c1 r1 =>
      if decide (c1 = slash) then
        match r1 with
        | String c2 r2 =>
            if decide (c2 = slash) then
              match r2 with
              | String c3 _ => if decide (c3 = slash) then ("/", r1) else ("//", r2)
              | EmptyString => ("//", r2)
              end
            else ("/", r1)
        | EmptyString => ("/", r1)
        end
      else (EmptyString, p)
  | EmptyString => (EmptyString, p)
  end.

(** A [PurePosixPath]: its root and its components ([_tail]). *)
Record t := mk { root : string; tail : list string }.

(** [PurePosixPath(p)]: empty and "." components are dropped. *)
Definition of_string (p : string) : t :=
  let '(r, rel) := splitroot p in
  mk r (List.filter (fun x => PyStr.truthy x && negb (bool_decide (x = "."))) (PyStr.split slash rel)).

(** [str(path)] *)
Definition to_string (path : t) : string :=
  if PyStr.truthy (root path) then root path +:+ PyStr.join "/" (tail path)
  else PyStr.or (PyStr.join "/" (tail path)) ".".

(** [path.name]: the last component, "" when there is none. *)
Definition name (path : t) : string := List.last (tail path) EmptyString.

(** [PurePath.suffix] of a name: the text from the last dot, when that
    dot is neither the first nor the last character. *)
Definition suffix (nm : string) : string :=
  match PyStr.split_once dot (PyStr.rev nm) with
  | Some (rext, rstem) =>
      if PyStr.truthy rext && PyStr.truthy rstem then String dot (PyStr.rev rext) else EmptyString
  | None => EmptyString
  end.

(** [PurePath.with_suffix(sfx)] *)
Definition with_suffix (path : t) (sfx : string) : pyres t :=
  if PyStr.contains slash sfx then Raise (ValueError "Invalid suffix") else
  if (PyStr.truthy sfx && negb (PyStr.startswith sfx ".")) || bool_decide (sfx = ".") then
    Raise (ValueError "Invalid suffix") else
  let nm := name path in
  if negb (PyStr.truthy nm) then Raise (ValueError "has an empty name") else
  let old := suffix nm in
  let nm' := if negb (PyStr.truthy old) then nm +:+ sfx
             else substring 0 (length nm - length old) nm +:+ sfx in
  Ok (mk (root path) (removelast (tail path) ++ [nm'])%list).

End PurePath.

(** The ["files"] of the commit payload (lines 324-327), built before the
    [try] of [commit_changes]. *)
Definition commit_files (worker_group lookup_filename : string) : pyres (list string) :=
  yml ← PurePath.with_suffix (PurePath.of_string lookup_filename) ".yml";
  Ok ["groups/" +:+ worker_group +:+ "/data/lookups/" +:+ lookup_filename;
      "groups/" +:+ worker_group +:+ "/data/lookups/" +:+ PurePath.to_string yml].

(** ** main.py: [main] (lines 365-421) *)

(** The steps of [main] that reach outside the process: the directory query
    (step 3), the token request (step 4) and the lookup API calls. *)
Inductive main_step := SQuery | SToken | SApi (c : api_call).

Section Main.

Variable ldap_search : string -> string -> string -> string -> pyres (list ad_entry).
Variable output_writable : bool.
(** The answer to the token request. *)
Variable token_resp : http_result.
Variable file_opens : bool.
Variable net : api_call -> http_result.

(** [main]: the steps taken and the exit status. An exception caught by the
    outer [except Exception] exits with 1; the [exit(1)] of [query_ad_users]
    raises [SystemExit], which that handler does not catch. *)
Definition main_run (args : Args.t) (file : option (gmap string string)) : list main_step * Z :=
  match resolve_config args file with
  | Raise _ => ([], 1%Z)
  | Ok st =>
    let q := query_ad_users ldap_search output_writable (Settings.ad_server st)
               (Settings.ad_user st) (Settings.ad_password st) (Settings.ad_domain st)
               (Settings.ad_search_domain st) (Settings.lookup_filename st) in
    match exit_status q with
    | Some code => ([SQuery], code)
    | None =>
      match get_bearer_token (Settings.client_id st) (Settings.client_secret st) token_resp with
      | Raise _ => ([SQuery; SToken], 1%Z)
      | Ok token =>
        if negb (json_truthy token) then ([SQuery; SToken], 1%Z) else
        match json_slice token with
        | Raise _ => ([SQuery; SToken], 1%Z)
        | Ok _ =>
            let '(calls, code) := main_sync (Settings.lookup_filename st) file_opens net in
            (SQuery :: SToken :: map SApi calls, code)
        end
      end
    end
  end.

End Main.

(** ** PowerBI_CriblSearch.py: building the table (lines 109-115) *)

(** A parsed record: the key/value pairs of a JSON object (a dict, so its
    keys are distinct). *)
Definition record := list (string * json).

(** The columns of [pd.DataFrame(records)]: every key, in order of first
    appearance. *)
Fixpoint add_columns (cols : list string) (kvs : record) : list string :=
  match kvs with
  | [] => cols
  | (k, _) :: rest => add_columns (if bool_decide (k ∈ cols) then cols else (cols ++ [k])%list) rest
  end.

Definition record_columns (recs : list record) : list string :=
  fold_left add_columns recs [].

(** A record's row: its value in each column, [NaN] where it has none. *)
Definition record_row (cols : list string) (kvs : record) : list cell :=
  map (fun c => match obj_get kvs c with Some v => Val v | None => NaN end) cols.

(** [pd.DataFrame(results)] for a list of dicts. *)
Definition frame_of_records (recs : list record) : frame :=
  let cols := record_columns recs in Frame cols (map (record_row cols) recs).

(** [columns_to_remove] (line 40) *)
Definition columns_to_remove : list string :=
  ["isFinished"; "offset"; "persistedEventCount"; "totalEventCount"; "job"].

(** [df.drop(columns=cols, errors='ignore')]: listed columns that are absent
    are ignored. *)
Definition drop_columns (cols : list string) (df : frame) : frame :=
  let keep := fun c => negb (bool_decide (c ∈ cols)) in
  Frame (List.filter keep (columns df))
        (map (fun r => map snd (List.filter (fun cv => keep cv.1) (combine (columns df) r)))
             (rows df)).

(** Lines 109-115: DataFrame, column removal, [dropna(how='all')]. *)
Definition build_table (recs : list record) : frame :=
  dropna_all (drop_columns columns_to_remove (frame_of_records recs)).

(** A record keeps a row in the table: one of its keys outside
    [columns_to_remove] holds a non-null value. *)
Definition record_has_data (kvs : record) : bool :=
  existsb (fun k => negb (bool_decide (k ∈ columns_to_remove)) &&
                    match obj_get kvs k with Some v => negb (isna (Val v)) | None => false end)
          (map fst kvs).

(** Writing a literal value into the config file: every '%' doubled. *)
Fixpoint escape_pct (s : string) : string :=
  match s with
  | EmptyString => EmptyString
  | String c s' =>
      if decide (c = "%"%char) then String "%" (String "%" (escape_pct s'))
      else String c (escape_pct s')
  end.

(** The write call [main] makes after the existence check (step 6). *)
Definition sync_path (lookup_filename : string) (net : api_call -> http_result) : api_call :=
  match check_lookup_exists lookup_filename (net CCheck) with Ok true => CUpdate | _ => CCreate end.

(** A run in which every service answers as [main] expects. *)
Definition sample_args : Args.t :=
  Args.mk (Some "id") (Some "secret") (Some "org") (Some "users.csv") (Some "ldap://dc1")
    (Some "joe") (Some "pw") (Some "corp.com") None None.

Definition sample_token : http_result :=
  Response 200 (Some (JObj [("access_token", JStr "tok")])).

Definition sample_net (c : api_call) : http_result :=
  match c with
  | CUpload => Response 200 (Some (JObj [("filename", JStr "users_tmp.csv")]))
  | CCheck => Response 200 (Some (JObj [("items", JArr [])]))
  | CCommit => Response 200 (Some (JObj [("items", JArr [JObj [("commit", JStr "c0ffee")]])]))
  | _ => Response 200 None
  end.

Definition sample_ldap (server user password base : string) : pyres (list ad_entry) := Ok [].

Definition sample_args_no_id : Args.t :=
  Args.mk None (Some "secret") (Some "org") (Some "users.csv") (Some "ldap://dc1")
    (Some "joe") (Some "pw") (Some "corp.com") None None.

Definition sample_args_no_secret : Args.t :=
  Args.mk (Some "id") None (Some "org") (Some "users.csv") (Some "ldap://dc1")
    (Some "joe") (Some "pw") (Some "corp.com") None None.

(** A config section whose secret holds a stray '%'. *)
Definition stray_pct_section : gmap string string := {[ "client_secret" := "a%%b%c" ]}.

(** A config section whose secret was written with its '%' doubled. *)
Definition escaped_section : gmap string string := {[ "client_secret" := escape_pct "p%(s)s%" ]}.

(* ================================================================== *)
(** * Properties *)

Example interp_pct :
  ConfigParser.get {[ "client_secret" := "a%%b" ]} "client_secret" = Ok "a%b".
Proof. reflexivity. Qed.

Example interp_ref :
  ConfigParser.get {[ "x" := "q"; "client_secret" := "a%(X)sb" ]} "client_secret" = Ok "aqb".
Proof. reflexivity. Qed.

Example interp_bad :
  ConfigParser.get {[ "client_secret" := "a%b" ]} "client_secret"
  = Raise (InterpolationError "'%' must be followed by '%' or '('").
Proof. reflexivity. Qed.

Example parse_upn : parse_ad_user "joe@x.com" "" = Ok ("joe", "x.com").
Proof. reflexivity. Qed.

Example parse_strip : parse_ad_user "  joe@x.com " "" = Ok ("joe", "x.com").
Proof. reflexivity. Qed.

(** ** parse_ad_user *)

(** ** String lemmas *)

Lemma app_String c a b : String c a +:+ b = String c (a +:+ b).
Proof. reflexivity. Qed.

Lemma app_Empty b : EmptyString +:+ b = b.
Proof. reflexivity. Qed.

Lemma contains_app c a b :
  PyStr.contains c (a +:+ b) = PyStr.contains c a || PyStr.contains c b.
Proof.
  induction a as [|d a IH]; [reflexivity|]. rewrite app_String. cbn [PyStr.contains].
  destruct (decide (c = d)); [reflexivity|exact IH].
Qed.

Lemma contains_self c b : PyStr.contains c (String c b) = true.
Proof. cbn [PyStr.contains]. rewrite decide_True by reflexivity. reflexivity. Qed.

Lemma split_once_app c a b :
  PyStr.contains c a = false -> PyStr.split_once c (a +:+ String c b) = Some (a, b).
Proof.
  induction a as [|d a IH]; intros H; rewrite ?app_String, ?app_Empty; cbn [PyStr.split_once].
  - rewrite decide_True by reflexivity. reflexivity.
  - cbn [PyStr.contains] in H. destruct (decide (c = d)); [discriminate|].
    rewrite IH by exact H. reflexivity.
Qed.

Lemma truthy_app_String a c b : PyStr.truthy (a +:+ String c b) = true.
Proof. destruct a; reflexivity. Qed.

Lemma truthy_of_strip (s : string) :
  PyStr.truthy (PyStr.strip s) = true -> PyStr.truthy s = true.
Proof. destruct s as [|c s]; [intros H; exact H | reflexivity]. Qed.

Lemma contains_cons_neq (c d : ascii) (s : string) :
  c <> d -> PyStr.contains c (String d s) = PyStr.contains c s.
Proof. intros H. cbn [PyStr.contains]. destruct (decide (c = d)); [contradiction|reflexivity]. Qed.

Lemma split_once_head (c : ascii) (s : string) :
  PyStr.split_once c (String c s) = Some (EmptyString, s).
Proof. cbn [PyStr.split_once]. destruct (decide (c = c)); [reflexivity|contradiction]. Qed.

Local Ltac chr_neq := let H := fresh in intro H; vm_compute in H; discriminate H.

(** C1: the accepted input shapes of [parse_ad_user]: a UPN and a NetBIOS
    name give their own domain whatever the external domain is; a bare name
    (no '@', '\' or '/' once stripped) takes the external domain, and with
    no domain it is a configuration error ([ValueError]), the empty name
    included. *)
Theorem parse_ad_user_shapes (ad_domain : string) :
  parse_ad_user "joe@x.com" ad_domain = Ok ("joe", "x.com") /\
  parse_ad_user netbios_joe ad_domain = Ok ("joe", "DOM") /\
  parse_ad_user "joe" "x.com" = Ok ("joe", "x.com") /\
  (forall ad_user,
     PyStr.contains at_sign (PyStr.strip ad_user) = false ->
     PyStr.contains backslash (PyStr.strip ad_user) = false ->
     PyStr.contains slash (PyStr.strip ad_user) = false ->
     is_config_error (parse_ad_user ad_user "") = true /\
     (forall d, PyStr.truthy ad_user = true -> PyStr.truthy d = true ->
        parse_ad_user ad_user d = Ok (PyStr.strip ad_user, d))).
Proof.
  split; [reflexivity|]. split; [reflexivity|]. split; [reflexivity|].
  intros u H1 H2 H3. split.
  - unfold parse_ad_user. destruct (PyStr.truthy u); cbn [negb]; [|reflexivity].
    cbv zeta. rewrite H1, H2, H3. reflexivity.
  - intros d Hu Hd. unfold parse_ad_user. rewrite Hu. cbn [negb]. cbv zeta.
    rewrite H1, H2, H3, Hd. reflexivity.
Qed.

Lemma parse_ad_user_shapes_witness :
  is_config_error (parse_ad_user " joe " "") = true /\
  parse_ad_user " joe " "corp.com" = Ok ("joe", "corp.com").
Proof.
  pose proof (proj2 (proj2 (proj2 (parse_ad_user_shapes ""))) " joe " eq_refl eq_refl eq_refl)
    as [H1 H2].
  split; [exact H1|]. exact (H2 "corp.com" eq_refl eq_refl).
Defined.

(** C10: a UPN or NetBIOS name with an empty domain part ("joe@", "\joe",
    "/joe", ...) is not an error: the external domain is used, even when it
    is empty. *)
Theorem parse_ad_user_empty_domain_part (ad_domain : string) :
  (forall ad_user u, PyStr.truthy u = true -> PyStr.contains at_sign u = false ->
     PyStr.strip ad_user = u +:+ String at_sign EmptyString ->
     parse_ad_user ad_user ad_domain = Ok (u, ad_domain)) /\
  (forall ad_user u sep, PyStr.truthy u = true -> PyStr.contains at_sign u = false ->
     (sep = backslash \/ (sep = slash /\ PyStr.contains backslash u = false)) ->
     PyStr.strip ad_user = String sep u ->
     parse_ad_user ad_user ad_domain = Ok (u, ad_domain)).
Proof.
  split.
  - intros ad_user u Hu Hat Hs. unfold parse_ad_user.
    rewrite (truthy_of_strip ad_user) by (rewrite Hs; apply truthy_app_String).
    cbn [negb]. cbv zeta. rewrite Hs, contains_app, contains_self, orb_true_r.
    rewrite split_once_app by exact Hat. rewrite Hu. reflexivity.
  - intros ad_user u sep Hu Hat Hsep Hs. unfold parse_ad_user.
    rewrite (truthy_of_strip ad_user) by (rewrite Hs; reflexivity).
    cbn [negb]. cbv zeta. rewrite Hs.
    destruct Hsep as [-> | [-> Hb]].
    + rewrite contains_cons_neq, Hat by chr_neq. rewrite contains_self. cbn [orb].
      rewrite split_once_head, Hu. reflexivity.
    + rewrite contains_cons_neq, Hat by chr_neq.
      rewrite (contains_cons_neq backslash slash), Hb by chr_neq.
      rewrite contains_self. cbn [orb]. rewrite split_once_head, Hu. reflexivity.
Qed.

Lemma parse_ad_user_empty_domain_part_witness :
  parse_ad_user "joe@ " "" = Ok ("joe", "") /\
  parse_ad_user (String backslash "joe") "corp.com" = Ok ("joe", "corp.com") /\
  parse_ad_user (String slash "joe") "corp.com" = Ok ("joe", "corp.com").
Proof.
  split; [exact (proj1 (parse_ad_user_empty_domain_part "") "joe@ " "joe" eq_refl eq_refl eq_refl)|].
  split.
  - exact (proj2 (parse_ad_user_empty_domain_part "corp.com") (String backslash "joe") "joe"
             backslash eq_refl eq_refl (or_introl eq_refl) eq_refl).
  - exact (proj2 (parse_ad_user_empty_domain_part "corp.com") (String slash "joe") "joe"
             slash eq_refl eq_refl (or_intror (conj eq_refl eq_refl)) eq_refl).
Defined.

(** ** Configuration precedence *)

Lemma interp_loop_no_pct rec sec b raw :
  PyStr.contains "%" raw = false -> ConfigParser.interp_loop rec sec b raw = Ok raw.
Proof.
  revert b. induction raw as [|c raw IH]; intros b Hn; destruct b; try reflexivity.
  cbn [ConfigParser.interp_loop].
  cbn [PyStr.contains] in Hn.
  destruct (decide ("%"%char = c)) as [Hc|Hc]; [discriminate|].
  rewrite (decide_False (P := c = "%"%char)) by congruence.
  rewrite IH by exact Hn. reflexivity.
Qed.

Lemma interpolate_no_pct sec raw :
  PyStr.contains "%" raw = false ->
  ConfigParser.interpolate_some (S ConfigParser.MAX_INTERPOLATION_DEPTH) 1 sec raw = Ok raw.
Proof. intros Hn. cbn [ConfigParser.interpolate_some]. apply interp_loop_no_pct, Hn. Qed.

Lemma lower_key_of f : ConfigParser.lower (key_of f) = key_of f.
Proof. destruct f; reflexivity. Qed.
Lemma defaults_key_of f : defaults !! key_of f = Some (default_of f).
Proof. destruct f; vm_compute; reflexivity. Qed.

Lemma get_field (file : option (gmap string string)) (f : field) :
  ConfigParser.get (load_config file) (key_of f) = read_field f file.
Proof.
  unfold ConfigParser.get, read_field, file_raw. rewrite lower_key_of.
  destruct file as [sec|]; cbn [load_config mbind option_bind].
  - rewrite lookup_union. destruct (sec !! key_of f) as [v|] eqn:E.
    + rewrite union_Some_l. reflexivity.
    + rewrite (left_id_L None union), defaults_key_of. reflexivity.
  - rewrite defaults_key_of. reflexivity.
Qed.

Lemma arg_or_field (a : Args.t) (file : option (gmap string string)) (f : field) :
  arg_or (cli_of f a) (load_config file) (key_of f)
  = match cli_override f a with Some v => Ok v | None => read_field f file end.
Proof.
  unfold arg_or, cli_override.
  destruct (cli_of f a) as [v|]; [destruct (PyStr.truthy v)|]; try reflexivity; apply get_field.
Qed.

Lemma resolve_config_ok (a : Args.t) (file : option (gmap string string)) (st : Settings.t) :
  resolve_config a file = Ok st <->
  forall f, arg_or (cli_of f a) (load_config file) (key_of f) = Ok (setting_of f st).
Proof.
  split.
  - intros H f. unfold resolve_config in H.
    repeat match type of H with
    | context [arg_or ?x ?c ?k] =>
        let E := fresh "E" in
        destruct (arg_or x c k) eqn:E; cbn [mbind pyres_bind] in H; [|discriminate H]
    end.
    injection H as <-. destruct f; cbn [cli_of key_of setting_of]; assumption.
  - intros H. unfold resolve_config.
    pose proof (H FClientId) as H1. pose proof (H FClientSecret) as H2.
    pose proof (H FOrganizationId) as H3. pose proof (H FLookupFilename) as H4.
    pose proof (H FTargetGroup) as H5. pose proof (H FAdServer) as H6.
    pose proof (H FAdUser) as H7. pose proof (H FAdPassword) as H8.
    pose proof (H FAdDomain) as H9. pose proof (H FAdSearchDomain) as H10.
    cbn [cli_of key_of setting_of] in H1, H2, H3, H4, H5, H6, H7, H8, H9, H10.
    rewrite H1, H2, H3, H4, H5, H6, H7, H8, H9, H10. cbn [mbind pyres_bind].
    destruct st. reflexivity.
Qed.

(** C2 (corrected): every field independently takes a non-empty command-line
    value, else [config["k"]], which is the config file's value when the
    file sets the key and otherwise the default (empty, or "default" for the
    target group), read through configparser's '%' interpolation; an empty
    command-line value counts as absent. The settings are resolved exactly
    when every field without such a command-line value reads without error
    (the file's values of the other fields are never read), and a value
    without '%' is read verbatim. *)
Theorem resolve_config_precedence (a : Args.t) (file : option (gmap string string)) :
  (forall st, resolve_config a file = Ok st -> forall f,
     Ok (setting_of f st)
     = match cli_override f a with Some v => Ok v | None => read_field f file end) /\
  ((exists st, resolve_config a file = Ok st) <->
   (forall f, cli_override f a = None -> exists s, read_field f file = Ok s)) /\
  (forall f, PyStr.contains "%" (file_raw f file) = false -> read_field f file = Ok (file_raw f file)).
Proof.
  split; [|split].
  - intros st Hst f. rewrite <- arg_or_field. symmetry.
    exact (proj1 (resolve_config_ok a file st) Hst f).
  - split.
    + intros [st Hst] f Hn. exists (setting_of f st).
      pose proof (proj1 (resolve_config_ok a file st) Hst f) as Hf.
      rewrite arg_or_field, Hn in Hf. exact Hf.
    + intros H.
      assert (Hp : forall f, exists s, arg_or (cli_of f a) (load_config file) (key_of f) = Ok s).
      { intros f. rewrite arg_or_field. destruct (cli_override f a) as [v|] eqn:E;
          [exists v; reflexivity | apply H, E]. }
      destruct (Hp FClientId) as [s1 H1]. destruct (Hp FClientSecret) as [s2 H2].
      destruct (Hp FOrganizationId) as [s3 H3]. destruct (Hp FLookupFilename) as [s4 H4].
      destruct (Hp FTargetGroup) as [s5 H5]. destruct (Hp FAdServer) as [s6 H6].
      destruct (Hp FAdUser) as [s7 H7]. destruct (Hp FAdPassword) as [s8 H8].
      destruct (Hp FAdDomain) as [s9 H9]. destruct (Hp FAdSearchDomain) as [s10 H10].
      exists (Settings.mk s1 s2 s3 s4 s5 s6 s7 s8 s9 s10).
      apply resolve_config_ok. intros f; destruct f; assumption.
  - intros f H. unfold read_field. apply interpolate_no_pct, H.
Qed.

Definition ce_args : Args.t :=
  Args.mk (Some "") None None None None None None None None None.

Definition ce_file : option (gmap string string) := Some {[ "client_id" := "abc" ]}.

(** C2, as worded: a command-line value that is present but empty does not
    override the config-file value. *)
Lemma resolve_config_empty_cli_ce :
  ~ (exists st, resolve_config ce_args ce_file = Ok st /\
       forall f, setting_of f st = spec_precedence f ce_args ce_file).
Proof.
  intros [st [Hr Hf]]. specialize (Hf FClientId).
  vm_compute in Hr. injection Hr as <-. vm_compute in Hf. discriminate.
Qed.

Lemma resolve_config_precedence_witness :
  exists st, resolve_config sample_args (Some stray_pct_section) = Ok st /\
             Settings.client_secret st = "secret".
Proof.
  assert (Hr : forall f, cli_override f sample_args = None ->
                 exists s, read_field f (Some stray_pct_section) = Ok s).
  { intros f Hn; destruct f; try discriminate Hn; eexists; vm_compute; reflexivity. }
  destruct (proj2 (proj1 (proj2 (resolve_config_precedence sample_args (Some stray_pct_section)))) Hr)
    as [st Hst].
  exists st. split; [exact Hst|].
  pose proof (proj1 (resolve_config_precedence sample_args (Some stray_pct_section)) st Hst
                FClientSecret) as H.
  cbn [setting_of] in H. vm_compute in H. injection H as H. exact H.
Defined.

(** ** The job-status poll loop *)

Definition poll_block (i : nat) : list poll_event := [GetStatus i; Sleep 2].

Lemma poll_loop_step (sr : nat -> http_result) (k : nat) (rest : list nat) :
  poll_loop sr (k :: rest)
  = match check_outcome (sr k) with
    | Some o => ([GetStatus k], o)
    | None => let '(tr, r) := poll_loop sr rest in (GetStatus k :: Sleep 2 :: tr, r)
    end.
Proof.
  cbn [poll_loop]. unfold check_outcome.
  destruct (job_status_of (sr k)) as [s|e]; [|reflexivity].
  destruct (status_done s); [reflexivity|]. destruct (status_failed s); reflexivity.
Qed.

Lemma poll_loop_from (sr : nat -> http_result) (n k : nat) :
  (exists j o, k <= j < k + n /\ (forall i, k <= i < j -> check_outcome (sr i) = None) /\
     check_outcome (sr j) = Some o /\
     poll_loop sr (seq k n) = ((flat_map poll_block (seq k (j - k)) ++ [GetStatus j])%list, o))
  \/ ((forall i, k <= i < k + n -> check_outcome (sr i) = None) /\
      poll_loop sr (seq k n) = (flat_map poll_block (seq k n), Ok tt)).
Proof.
  revert k. induction n as [|n IH]; intros k.
  - right. split; [intros; lia | reflexivity].
  - cbn [seq]. rewrite poll_loop_step.
    destruct (check_outcome (sr k)) as [o|] eqn:Hk.
    + left. exists k, o. split; [lia|]. split; [intros; lia|]. split; [exact Hk|].
      rewrite Nat.sub_diag. reflexivity.
    + destruct (IH (S k)) as [(j & o & Hj & Hpre & Ho & Hrun) | (Hall & Hrun)]; rewrite Hrun.
      * left. exists j, o. split; [lia|]. split.
        { intros i Hi. destruct (Nat.eq_dec i k) as [->|]; [exact Hk|]. apply Hpre; lia. }
        split; [exact Ho|].
        replace (j - k) with (S (j - S k)) by lia. reflexivity.
      * right. split; [|reflexivity].
        intros i Hi. destruct (Nat.eq_dec i k) as [->|]; [exact Hk|]. apply Hall; lia.
Qed.

Lemma count_checks_blocks (k j : nat) :
  List.length (List.filter is_check (flat_map poll_block (seq k j))) = j.
Proof.
  revert k. induction j as [|j IH]; intros k; [reflexivity|].
  cbn [seq flat_map]. cbn. rewrite IH. reflexivity.
Qed.

Lemma count_checks_app (l1 l2 : list poll_event) :
  List.length (List.filter is_check (l1 ++ l2)%list)
  = (List.length (List.filter is_check l1) + List.length (List.filter is_check l2))%nat.
Proof. rewrite List.filter_app, List.length_app. reflexivity. Qed.

Lemma check_outcome_none (r : http_result) :
  check_outcome r = None <-> exists s, job_status_of r = Ok s /\ terminal s = false.
Proof.
  unfold check_outcome, terminal. destruct (job_status_of r) as [s|e].
  - split.
    + destruct (status_done s) eqn:Hd; [discriminate|].
      destruct (status_failed s) eqn:Hf; [discriminate|].
      intros _. exists s. split; [reflexivity|]. rewrite Hd, Hf. reflexivity.
    + intros [s' [Hs' Ht]]. injection Hs' as Hs'. subst s'.
      destruct (status_done s); [discriminate Ht|].
      destruct (status_failed s); [discriminate Ht|reflexivity].
  - split; [discriminate|]. intros [s [Hs _]]. discriminate Hs.
Qed.

Lemma status_failed_true (s : json) : status_failed s = true -> s = JStr "failed".
Proof.
  destruct s; cbn [status_failed]; try discriminate.
  intros H. f_equal. exact (bool_decide_eq_true_1 _ H).
Qed.

Lemma check_outcome_some (r : http_result) (o : pyres unit) :
  check_outcome r = Some o ->
  (exists s, job_status_of r = Ok s /\ status_done s = true /\ o = Ok tt) \/
  (job_status_of r = Ok (JStr "failed") /\ o = Raise SearchJobFailed) \/
  (exists e, job_status_of r = Raise e /\ o = Raise e).
Proof.
  unfold check_outcome. destruct (job_status_of r) as [s|e].
  - destruct (status_done s) eqn:Hd.
    + intros H. injection H as <-. left. exists s. split; [reflexivity|]. split; [exact Hd|reflexivity].
    + destruct (status_failed s) eqn:Hf; [|discriminate].
      intros H. injection H as <-. right; left. rewrite (status_failed_true s Hf).
      split; reflexivity.
  - intros H. injection H as <-. right; right. exists e. split; reflexivity.
Qed.

(** C3 (corrected): one run of the poll loop makes at most 60 status checks,
    with a two-unit wait after each check reporting no terminal status. It
    stops at the first check that either reports "done"/"completed" (then
    the results are requested), reports "failed" (raising "Search job
    failed"), or itself raises (request error, a body that is not JSON, no
    items[0]["status"]), the run then ending with that exception. After 60
    non-terminal statuses the results are requested anyway, with no timeout
    error. *)
Theorem wait_and_fetch_spec (status_resp : nat -> http_result) (results_resp : http_result) :
  (List.length (List.filter is_check (fst (wait_and_fetch status_resp results_resp)))
     <= max_attempts)%nat /\
  ((exists j, j < max_attempts /\
      (forall i, i < j -> exists s, job_status_of (status_resp i) = Ok s /\ terminal s = false) /\
      ((exists s, job_status_of (status_resp j) = Ok s /\ status_done s = true /\
         wait_and_fetch status_resp results_resp
         = ((poll_blocks j ++ [GetStatus j; GetResults])%list, requests_get results_resp)) \/
       (job_status_of (status_resp j) = Ok (JStr "failed") /\
         wait_and_fetch status_resp results_resp
         = ((poll_blocks j ++ [GetStatus j])%list, Raise SearchJobFailed)) \/
       (exists e, job_status_of (status_resp j) = Raise e /\
         wait_and_fetch status_resp results_resp = ((poll_blocks j ++ [GetStatus j])%list, Raise e))))
   \/ ((forall i, i < max_attempts ->
          exists s, job_status_of (status_resp i) = Ok s /\ terminal s = false) /\
       wait_and_fetch status_resp results_resp
       = ((poll_blocks max_attempts ++ [GetResults])%list, requests_get results_resp))).
Proof.
  unfold wait_and_fetch, poll_blocks.
  destruct (poll_loop_from status_resp max_attempts 0)
    as [(j & o & Hj & Hpre & Ho & Hrun) | (Hall & Hrun)];
    try rewrite Nat.sub_0_r in Hrun; rewrite Hrun; cbv beta iota.
  - assert (Hpre' : forall i, i < j ->
              exists s, job_status_of (status_resp i) = Ok s /\ terminal s = false)
      by (intros i Hi; apply check_outcome_none, Hpre; lia).
    destruct (check_outcome_some _ _ Ho) as [(s & Hs & Hd & ->) | [[Hf ->] | (e & He & ->)]].
    + split.
      { cbn [fst]. rewrite <- List.app_assoc, count_checks_app, count_checks_blocks.
        unfold max_attempts in *. cbn. lia. }
      left. exists j. split; [lia|]. split; [exact Hpre'|].
      left. exists s. split; [exact Hs|]. split; [exact Hd|]. rewrite <- List.app_assoc. reflexivity.
    + split.
      { cbn [fst]. rewrite count_checks_app, count_checks_blocks. cbn. unfold max_attempts in *; lia. }
      left. exists j. split; [lia|]. split; [exact Hpre'|].
      right; left. split; [exact Hf|reflexivity].
    + split.
      { cbn [fst]. rewrite count_checks_app, count_checks_blocks. cbn. unfold max_attempts in *; lia. }
      left. exists j. split; [lia|]. split; [exact Hpre'|].
      right; right. exists e. split; [exact He|reflexivity].
  - split.
    { cbn [fst]. rewrite count_checks_app, count_checks_blocks. cbn. unfold max_attempts in *; lia. }
    right. split; [|reflexivity].
    intros i Hi. apply check_outcome_none, Hall. lia.
Qed.

(** A status endpoint that answers 401 with an error body. *)
Definition unauthorized_status (attempt : nat) : http_result :=
  Response 401 (Some (JObj [("message", JStr "Unauthorized")])).

(** C3, as worded: the loop raises a fatal error although no check reported
    the status "failed". *)
Lemma wait_and_fetch_error_without_failed_ce :
  snd (wait_and_fetch unauthorized_status ConnectionFailed) = Raise (KeyError "items") /\
  ~ (exists i, job_status_of (unauthorized_status i) = Ok (JStr "failed")).
Proof.
  split; [vm_compute; reflexivity|].
  intros [i Hi]. vm_compute in Hi. discriminate Hi.
Qed.

(** ** NDJSON parsing *)

Lemma parse_lines_kinds (json_loads : string -> pyres json) (acc : list json) (ls : list string) :
  Forall (line_kind_ok json_loads) ls ->
  parse_lines json_loads acc ls = Ok (acc ++ omap (nonempty_object json_loads) ls)%list.
Proof.
  revert acc. induction ls as [|l ls IH]; intros acc Hall.
  - cbn. rewrite List.app_nil_r. reflexivity.
  - inversion Hall as [|? ? Hl Hrest]; subst. cbn [parse_lines].
    change (omap (nonempty_object json_loads) (l :: ls)) with
      (match nonempty_object json_loads l with
       | Some y => y :: omap (nonempty_object json_loads) ls
       | None => omap (nonempty_object json_loads) ls
       end).
    destruct (PyStr.truthy (PyStr.strip l)) eqn:Hb.
    + destruct Hl as [Hbl | [Hemp | (kvs & Hne & Hobj)]].
      * unfold is_blank in Hbl. rewrite Hb in Hbl. discriminate.
      * assert (E : nonempty_object json_loads l = None)
          by (unfold nonempty_object, is_blank; rewrite Hb, Hemp; reflexivity).
        rewrite E, Hemp. cbn [mbind pyres_bind json_truthy]. apply IH, Hrest.
      * destruct kvs as [|kv kvs]; [congruence|].
        assert (E : nonempty_object json_loads l = Some (JObj (kv :: kvs)))
          by (unfold nonempty_object, is_blank; rewrite Hb, Hobj; reflexivity).
        rewrite E, Hobj. cbn [mbind pyres_bind json_truthy].
        rewrite IH by exact Hrest. rewrite <- List.app_assoc. reflexivity.
    + assert (E : nonempty_object json_loads l = None)
        by (unfold nonempty_object, is_blank; rewrite Hb; reflexivity).
      rewrite E. apply IH, Hrest.
Qed.

Lemma parse_lines_output_truthy (json_loads : string -> pyres json) (acc : list json) (ls : list string) res :
  Forall (fun v => json_truthy v = true) acc ->
  parse_lines json_loads acc ls = Ok res -> Forall (fun v => json_truthy v = true) res.
Proof.
  revert acc. induction ls as [|l ls IH]; intros acc Hacc Hrun; cbn [parse_lines] in Hrun.
  - injection Hrun as <-. exact Hacc.
  - destruct (PyStr.truthy (PyStr.strip l)).
    + destruct (json_loads l) as [v|e]; cbn [mbind pyres_bind] in Hrun; [|discriminate].
      destruct (json_truthy v) eqn:Ht; [|exact (IH acc Hacc Hrun)].
      refine (IH _ _ Hrun).
      apply (proj2 (List.Forall_app _ _ _)). split; [exact Hacc|].
      apply List.Forall_cons; [exact Ht | apply List.Forall_nil].
    + exact (IH acc Hacc Hrun).
Qed.

Lemma parse_lines_drop_empty (json_loads : string -> pyres json) (acc : list json) (ls : list string) :
  parse_lines json_loads acc ls
  = parse_lines json_loads acc (List.filter (fun l => negb (empty_line json_loads l)) ls).
Proof.
  revert acc. induction ls as [|l ls IH]; intros acc; [reflexivity|].
  cbn [List.filter]. destruct (empty_line json_loads l) eqn:He; cbn [negb parse_lines].
  - unfold empty_line, is_blank in He.
    destruct (PyStr.truthy (PyStr.strip l)); cbn [negb orb] in He; [|apply IH].
    destruct (json_loads l) as [v|e]; [|discriminate He].
    destruct v as [| | | | |[|kv kvs]]; try discriminate He. apply IH.
  - destruct (PyStr.truthy (PyStr.strip l)); [|apply IH].
    destruct (json_loads l); cbn [mbind pyres_bind]; [apply IH|reflexivity].
Qed.

(** C4: for every results body, dropping its blank lines and its lines that
    parse to [{}] does not change the outcome of the parse, and [{}] is
    never among the parsed results; when every line is blank, the empty
    object, or a non-empty object, parsing yields exactly the non-empty
    objects in line order. *)
Theorem parse_results_nonempty_objects (json_loads : string -> pyres json) (text : string) :
  parse_results json_loads text
  = parse_lines json_loads []
      (List.filter (fun l => negb (empty_line json_loads l)) (ndjson_lines text)) /\
  (forall res, parse_results json_loads text = Ok res -> Forall (fun v => v <> JObj []) res) /\
  (Forall (line_kind_ok json_loads) (ndjson_lines text) ->
   parse_results json_loads text = Ok (omap (nonempty_object json_loads) (ndjson_lines text))).
Proof.
  split; [|split].
  - apply parse_lines_drop_empty.
  - intros res Hr.
    refine (List.Forall_impl _ _ (parse_lines_output_truthy json_loads [] _ res (List.Forall_nil _) Hr)).
    intros v Hv ->. discriminate Hv.
  - intros H. unfold parse_results. apply (parse_lines_kinds json_loads [] _ H).
Qed.

Lemma parse_results_nonempty_objects_witness :
  Forall (line_kind_ok MiniJson.loads) (ndjson_lines sample_results) /\
  parse_results MiniJson.loads sample_results
  = Ok (omap (nonempty_object MiniJson.loads) (ndjson_lines sample_results)).
Proof.
  assert (H : Forall (line_kind_ok MiniJson.loads) (ndjson_lines sample_results)).
  { assert (E : ndjson_lines sample_results = [sample_line "1"; ""; "{}"; sample_line "2"])
      by (vm_compute; reflexivity).
    rewrite E. repeat apply List.Forall_cons; try apply List.Forall_nil; unfold line_kind_ok.
    - right; right. exists [("a", JNum 1)]. split; [discriminate | vm_compute; reflexivity].
    - left. vm_compute. reflexivity.
    - right; left. vm_compute. reflexivity.
    - right; right. exists [("a", JNum 2)]. split; [discriminate | vm_compute; reflexivity]. }
  split; [exact H|]. exact (proj2 (proj2 (parse_results_nonempty_objects MiniJson.loads sample_results)) H).
Defined.

Lemma sample_results_parsed :
  parse_results MiniJson.loads sample_results = Ok [JObj [("a", JNum 1)]; JObj [("a", JNum 2)]].
Proof. vm_compute. reflexivity. Qed.


(** C9: a line whose parsed value is falsy (null, false, 0, "", [], {})
    contributes nothing: removing it leaves the outcome unchanged, and no
    falsy value is ever in the parsed results. *)
Theorem parse_lines_discards_falsy (json_loads : string -> pyres json)
    (pre post : list string) (line : string) (v : json) :
  json_loads line = Ok v -> json_truthy v = false ->
  (forall acc, parse_lines json_loads acc (pre ++ line :: post)%list
               = parse_lines json_loads acc (pre ++ post)%list) /\
  (forall text res, parse_results json_loads text = Ok res ->
                    Forall (fun w => json_truthy w = true) res).
Proof.
  intros Hv Hf. split.
  - induction pre as [|l pre IH]; intros acc; cbn [List.app parse_lines].
    + destruct (PyStr.truthy (PyStr.strip line)); [|reflexivity].
      rewrite Hv. cbn. rewrite Hf. reflexivity.
    + destruct (PyStr.truthy (PyStr.strip l)); [|apply IH].
      destruct (json_loads l); cbn; [apply IH | reflexivity].
  - intros text res Hr. exact (parse_lines_output_truthy json_loads [] _ res (List.Forall_nil _) Hr).
Qed.

Lemma parse_lines_discards_falsy_witness :
  MiniJson.loads "null" = Ok JNull /\ json_truthy JNull = false /\
  parse_lines MiniJson.loads [] ["{}"; "null"; "[]"] = parse_lines MiniJson.loads [] ["{}"; "[]"].
Proof.
  split; [reflexivity|]. split; [reflexivity|].
  exact (proj1 (parse_lines_discards_falsy MiniJson.loads ["{}"] ["[]"] "null" JNull
                  eq_refl eq_refl) []).
Defined.

Lemma falsy_scalars_dropped :
  parse_lines MiniJson.loads [] ["null"; "false"; "0"; "[]"; "{}"; "7"] = Ok [JNum 7].
Proof. vm_compute. reflexivity. Qed.

(** ** dropna(how='all') *)

(** C5 (corrected): a row survives [dropna(how='all')] exactly when one of
    its fields is not NA (missing or null); rows whose fields are all NA are
    dropped, and a field holding an empty string, list or object keeps its
    row. *)
Theorem dropna_all_rows (df : frame) (r : list cell) :
  In r (rows (dropna_all df)) <-> In r (rows df) /\ exists c, In c r /\ isna c = false.
Proof.
  unfold dropna_all. cbn [rows]. rewrite List.filter_In.
  split; intros [Hin Hp]; split; try exact Hin.
  - apply Nat.ltb_lt in Hp.
    destruct (List.filter (fun c => negb (isna c)) r) as [|c l] eqn:E; [cbn in Hp; lia|].
    assert (Hc : In c (List.filter (fun c => negb (isna c)) r)) by (rewrite E; left; reflexivity).
    apply List.filter_In in Hc as [Hc Hn]. exists c. split; [exact Hc|].
    destruct (isna c); [discriminate | reflexivity].
  - destruct Hp as (c & Hc & Hn). apply Nat.ltb_lt.
    assert (Hf : In c (List.filter (fun c => negb (isna c)) r))
      by (apply List.filter_In; split; [exact Hc | rewrite Hn; reflexivity]).
    destruct (List.filter (fun c => negb (isna c)) r); [contradiction | cbn; lia].
Qed.

Definition ce_frame : frame := Frame ["a"] [[Val (JStr "")]].

(** C5, as worded: a row whose every field is empty (here an empty string)
    is kept by [dropna(how='all')]. *)
Lemma dropna_keeps_empty_string_row :
  In [Val (JStr "")] (rows ce_frame) /\
  forallb empty_field [Val (JStr "")] = true /\
  In [Val (JStr "")] (rows (dropna_all ce_frame)).
Proof. split; [left; reflexivity|]. split; [reflexivity|]. left. reflexivity. Qed.

(** ** The lookup existence check *)

Lemma raise_for_status_ok code body :
  (code < 400)%Z -> raise_for_status (Response code body) = Ok tt.
Proof.
  intros H. unfold raise_for_status.
  replace (400 <=? code)%Z with false by (symmetry; apply Z.leb_gt; lia). reflexivity.
Qed.

Lemma check_lookup_exists_failed fn r :
  request_failed r -> check_lookup_exists fn r = Ok false.
Proof.
  destruct r as [|code body]; intros H; [reflexivity|].
  cbn in H. unfold check_lookup_exists, raise_for_status.
  replace (400 <=? code)%Z with true by (symmetry; apply Z.leb_le; lia).
  replace (code <? 600)%Z with true by (symmetry; apply Z.ltb_lt; lia).
  reflexivity.
Qed.

Lemma any_id_absent fn l :
  Forall (fun item => exists ikvs, item = JObj ikvs /\ obj_get ikvs "id" <> Some (JStr fn)) l ->
  any_id fn l = Ok false.
Proof.
  induction 1 as [|item l (ikvs & -> & Hid) _ IH]; [reflexivity|].
  cbn [any_id json_get mbind pyres_bind].
  destruct (obj_get ikvs "id") as [[| | | s | |]|]; try exact IH.
  case_bool_decide as Hs; [subst; contradiction|exact IH].
Qed.

Lemma check_lookup_exists_catalog fn code data :
  (code < 400)%Z -> catalog_without fn data ->
  check_lookup_exists fn (Response code (Some data)) = Ok false.
Proof.
  intros Hc (kvs & -> & Hitems). unfold check_lookup_exists.
  rewrite raise_for_status_ok by exact Hc. cbn [mbind pyres_bind response_json].
  destruct kvs as [|kv kvs]; [reflexivity|]. cbn [json_truthy negb json_contains].
  destruct Hitems as [Hn | (l & Hl & Hall)].
  - rewrite Hn. reflexivity.
  - rewrite Hl. cbn [json_getitem]. rewrite Hl. cbn [mbind pyres_bind json_truthy negb].
    destruct l as [|item l]; [reflexivity|]. cbn [json_iter mbind pyres_bind].
    rewrite (any_id_absent fn (item :: l) Hall). reflexivity.
Qed.

(** C6: a failed request and a successful response whose catalog has no item
    with the requested id both give [False] (no exception), and [main] then
    takes the create path. *)
Theorem check_lookup_exists_soft_fail (lookup_filename : string) (failed : http_result)
    (code : Z) (data : json) :
  request_failed failed -> (code < 400)%Z -> catalog_without lookup_filename data ->
  check_lookup_exists lookup_filename failed = Ok false /\
  check_lookup_exists lookup_filename (Response code (Some data))
  = check_lookup_exists lookup_filename failed /\
  choose_path (check_lookup_exists lookup_filename failed) = Ok CreatePath /\
  choose_path (check_lookup_exists lookup_filename (Response code (Some data))) = Ok CreatePath.
Proof.
  intros Hf Hc Hcat.
  rewrite (check_lookup_exists_failed _ _ Hf), (check_lookup_exists_catalog _ _ _ Hc Hcat).
  repeat split; reflexivity.
Qed.

Lemma check_lookup_exists_soft_fail_witness :
  request_failed (Response 503 None) /\ (200 < 400)%Z /\
  catalog_without "users.csv" (JObj [("items", JArr [JObj [("id", JStr "other.csv")]])]) /\
  check_lookup_exists "users.csv" (Response 503 None) = Ok false.
Proof.
  assert (Hf : request_failed (Response 503 None)) by (cbn; lia).
  assert (Hc : (200 < 400)%Z) by lia.
  assert (Hcat : catalog_without "users.csv" (JObj [("items", JArr [JObj [("id", JStr "other.csv")]])])).
  { eexists. split; [reflexivity|]. right. eexists. split; [reflexivity|].
    apply List.Forall_cons; [|apply List.Forall_nil].
    eexists. split; [reflexivity|]. cbn. discriminate. }
  split; [exact Hf|]. split; [exact Hc|]. split; [exact Hcat|].
  exact (proj1 (check_lookup_exists_soft_fail "users.csv" (Response 503 None) 200 _ Hf Hc Hcat)).
Defined.

(** ** The upload response *)

Lemma main_sync_upload_none fn net :
  upload_lookup_file fn true (net CUpload) = Ok None ->
  main_sync fn true net = ([CUpload], 1%Z).
Proof. intros H. unfold main_sync. rewrite H. reflexivity. Qed.

(** C7: for a successful upload response whose "filename" is absent or a
    string, [upload_lookup_file] returns that filename exactly when it is
    non-empty and starts with the base name (the text before the first dot);
    otherwise it returns [None] and [main] exits with status 1 right after
    the upload. *)
Theorem upload_lookup_file_filename (lookup_filename : string) (code : Z)
    (kvs : list (string * json)) :
  (code < 400)%Z -> filename_field_ok kvs ->
  (exists t, good_temp lookup_filename kvs t /\
     upload_lookup_file lookup_filename true (Response code (Some (JObj kvs))) = Ok (Some (JStr t)))
  \/
  ((~ exists t, good_temp lookup_filename kvs t) /\
   upload_lookup_file lookup_filename true (Response code (Some (JObj kvs))) = Ok None /\
   forall net, net CUpload = Response code (Some (JObj kvs)) ->
     main_sync lookup_filename true net = ([CUpload], 1%Z)).
Proof.
  intros Hc Hff.
  assert (Hnone : upload_lookup_file lookup_filename true (Response code (Some (JObj kvs))) = Ok None ->
                  forall net, net CUpload = Response code (Some (JObj kvs)) ->
                  main_sync lookup_filename true net = ([CUpload], 1%Z)).
  { intros Hu net Hn. apply main_sync_upload_none. rewrite Hn. exact Hu. }
  unfold upload_lookup_file in *. rewrite raise_for_status_ok in * by exact Hc.
  cbn [negb mbind pyres_bind response_json json_get] in *.
  destruct Hff as [Hn | (s & Hs)].
  - right. rewrite Hn in *. split; [intros (t & Ht & _); congruence|].
    split; [reflexivity|]. apply Hnone. reflexivity.
  - rewrite Hs in *. cbn [json_truthy json_startswith mbind pyres_bind] in *.
    destruct s as [|a s'].
    + right. split; [intros (t & (Ht & Hne & _)); rewrite Hs in Ht; injection Ht as <-; contradiction|].
      split; [reflexivity|]. apply Hnone. reflexivity.
    + cbn [PyStr.truthy negb] in *.
      destruct (PyStr.startswith (String a s') (base_name lookup_filename)) eqn:Hp.
      * left. exists (String a s'). split; [|reflexivity].
        split; [exact Hs|]. split; [discriminate|exact Hp].
      * right. split.
        { intros (t & Ht & _ & Hpt). rewrite Hs in Ht. injection Ht as <-. congruence. }
        split; [reflexivity|]. apply Hnone. reflexivity.
Qed.

Lemma upload_lookup_file_filename_witness :
  (200 < 400)%Z /\ filename_field_ok [("filename", JStr "other.csv")] /\
  upload_lookup_file "users.csv" true (Response 200 (Some (JObj [("filename", JStr "other.csv")])))
  = Ok None.
Proof.
  assert (Hc : (200 < 400)%Z) by lia.
  assert (Hf : filename_field_ok [("filename", JStr "other.csv")]) by (right; eexists; reflexivity).
  split; [exact Hc|]. split; [exact Hf|].
  destruct (upload_lookup_file_filename "users.csv" 200 _ Hc Hf) as [(t & (Ht & _ & Hp) & _) | (_ & Hu & _)].
  - cbn in Ht. injection Ht as <-. discriminate Hp.
  - exact Hu.
Defined.

(** ** The CSV written by query_ad_users *)

Lemma value_or_empty_spec (v : option string) :
  value_or_empty v = match v with Some s => s | None => EmptyString end.
Proof. destruct v as [[|c s]|]; reflexivity. Qed.

Lemma csv_rows_spec (entries : list ad_entry) :
  Forall2 (fun e row => row = map (fun v => match v with Some s => s | None => EmptyString end)
                                  (entry_values e))
          entries (map csv_row entries).
Proof.
  induction entries as [|e entries IH]; constructor; [|exact IH].
  unfold csv_row, entry_values. cbn [map]. rewrite !value_or_empty_spec. reflexivity.
Qed.

(** C8: once the configuration checks pass and the directory search returns
    its entries (possibly none), [query_ad_users] writes exactly one CSV: the
    fixed header row, then one row per entry, a missing attribute written as
    the empty string. *)
Theorem query_ad_users_writes_csv
    (ldap_search : string -> string -> string -> string -> pyres (list ad_entry))
    (ad_server ad_user ad_password ad_domain ad_search_domain output_file : string)
    (username user_domain : string) (entries : list ad_entry) :
  parse_ad_user ad_user ad_domain = Ok (username, user_domain) ->
  PyStr.truthy (PyStr.or ad_search_domain ad_domain) = true ->
  PyStr.truthy ad_server = true ->
  PyStr.truthy ad_password = true ->
  ldap_search ad_server
    (if PyStr.truthy user_domain then username +:+ "@" +:+ user_domain else username)
    ad_password (search_base_of (PyStr.or ad_search_domain ad_domain)) = Ok entries ->
  exists rows,
    query_ad_users ldap_search true ad_server ad_user ad_password ad_domain ad_search_domain
      output_file
    = QueryOutcome
        [(output_file,
          ["sAMAccountName"; "DisplayName"; "EmailAddress"; "Department"; "Title"] :: rows)]
        None /\
    Forall2 (fun e row => row = map (fun v => match v with Some s => s | None => EmptyString end)
                                    (entry_values e))
            entries rows.
Proof.
  intros Hp Hd Hs Hpw Hl. exists (map csv_row entries). split; [|apply csv_rows_spec].
  unfold query_ad_users, query_ad_users_body. rewrite Hp. cbn [mbind pyres_bind].
  rewrite Hd, Hs, Hpw. cbn [negb]. rewrite Hl. reflexivity.
Qed.

Lemma query_ad_users_writes_csv_witness :
  exists rows,
    query_ad_users (fun _ _ _ _ => Ok []) true "ldap://dc1" "joe" "pw" "x.com" "" "users.csv"
    = QueryOutcome
        [("users.csv",
          ["sAMAccountName"; "DisplayName"; "EmailAddress"; "Department"; "Title"] :: rows)]
        None /\
    Forall2 (fun e row => row = map (fun v => match v with Some s => s | None => EmptyString end)
                                    (entry_values e))
            [] rows.
Proof.
  exact (query_ad_users_writes_csv (fun _ _ _ _ => Ok []) "ldap://dc1" "joe" "pw" "x.com" ""
           "users.csv" "joe" "x.com" [] eq_refl eq_refl eq_refl eq_refl eq_refl).
Defined.

(* ================================================================== *)
(** * Further properties of the two scripts *)

Lemma split_no_sep c a : PyStr.contains c a = false -> PyStr.split c a = [a].
Proof.
  induction a as [|d a IH]; intros H; [reflexivity|].
  cbn [PyStr.contains] in H. cbn [PyStr.split].
  destruct (decide (c = d)); [discriminate|]. rewrite IH by exact H. reflexivity.
Qed.

Lemma split_app_sep c a b :
  PyStr.contains c a = false -> PyStr.split c (a +:+ String c b) = a :: PyStr.split c b.
Proof.
  induction a as [|d a IH]; intros H; rewrite ?app_String, ?app_Empty; cbn [PyStr.split].
  - rewrite decide_True by reflexivity. reflexivity.
  - cbn [PyStr.contains] in H. destruct (decide (c = d)); [discriminate|].
    rewrite IH by exact H. reflexivity.
Qed.

Lemma split_join c comps :
  comps <> [] -> Forall (fun x => PyStr.contains c x = false) comps ->
  PyStr.split c (PyStr.join (String c EmptyString) comps) = comps.
Proof.
  induction comps as [|a comps IH]; intros Hne Hall; [congruence|].
  inversion Hall as [|? ? Ha Hrest]; subst.
  destruct comps as [|b comps].
  - cbn [PyStr.join]. apply split_no_sep, Ha.
  - change (PyStr.join (String c EmptyString) (a :: b :: comps))
      with (a +:+ String c EmptyString +:+ PyStr.join (String c EmptyString) (b :: comps)).
    rewrite app_String, app_Empty, split_app_sep by exact Ha.
    rewrite IH; [reflexivity|discriminate|exact Hrest].
Qed.

(** ** parse_ad_user on whole families of inputs *)

(** X1: a trimmed user name holding an '@' is split at its first '@': the text
    before it is the username (empty is a configuration error), the whole
    rest, which may itself hold '@', '\' or '/', is the domain, and the
    external domain stands in only when that rest is empty. *)
Theorem parse_ad_user_upn_split (u rest ad_domain : string) :
  PyStr.contains at_sign u = false ->
  PyStr.strip (u +:+ String at_sign rest) = u +:+ String at_sign rest ->
  parse_ad_user (u +:+ String at_sign rest) ad_domain
  = if PyStr.truthy u then Ok (u, PyStr.or rest ad_domain)
    else Raise (ValueError ("Invalid AD user format: " +:+ (u +:+ String at_sign rest) +:+
                            ". Username cannot be empty.")).
Proof.
  intros Hu Hs. unfold parse_ad_user. cbv zeta.
  rewrite truthy_app_String, Hs, contains_app, contains_self, orb_true_r.
  rewrite split_once_app by exact Hu. cbn [negb].
  destruct (PyStr.truthy u); reflexivity.
Qed.

Lemma parse_ad_user_upn_split_witness :
  PyStr.contains at_sign "joe" = false /\
  PyStr.strip ("joe" +:+ String at_sign "corp.com@eu") = "joe" +:+ String at_sign "corp.com@eu" /\
  parse_ad_user ("joe" +:+ String at_sign "corp.com@eu") "x.com" = Ok ("joe", "corp.com@eu").
Proof.
  split; [reflexivity|]. split; [reflexivity|].
  exact (parse_ad_user_upn_split "joe" "corp.com@eu" "x.com" eq_refl eq_refl).
Defined.

(** X2: a trimmed user name without '@' holding a '\' is split at its first
    '\' (a '/' only counts when there is no '\'): the text before it is the
    domain, the external domain standing in when it is empty, and the whole
    rest is the username, an empty one being a configuration error. *)
Theorem parse_ad_user_netbios_split (dom u ad_domain : string) (sep : ascii) :
  (sep = backslash \/ (sep = slash /\ PyStr.contains backslash (dom +:+ String sep u) = false)) ->
  PyStr.contains at_sign (dom +:+ String sep u) = false ->
  PyStr.contains sep dom = false ->
  PyStr.strip (dom +:+ String sep u) = dom +:+ String sep u ->
  parse_ad_user (dom +:+ String sep u) ad_domain
  = if PyStr.truthy u then Ok (u, PyStr.or dom ad_domain)
    else Raise (ValueError ("Invalid AD user format: " +:+ (dom +:+ String sep u) +:+
                            ". Username cannot be empty.")).
Proof.
  intros Hsep Hat Hdom Hs. unfold parse_ad_user. cbv zeta.
  rewrite truthy_app_String, Hs, Hat. cbn [negb].
  destruct Hsep as [-> | [-> Hb]].
  - rewrite (contains_app backslash dom), contains_self, orb_true_r. cbn [orb].
    rewrite split_once_app by exact Hdom. destruct (PyStr.truthy u); reflexivity.
  - rewrite Hb, (contains_app slash dom), contains_self, orb_true_r. cbn [orb].
    rewrite split_once_app by exact Hdom. destruct (PyStr.truthy u); reflexivity.
Qed.

Lemma parse_ad_user_netbios_split_witness :
  (slash = backslash \/ (slash = slash /\ PyStr.contains backslash ("CORP" +:+ String slash "joe/x") = false)) /\
  PyStr.contains at_sign ("CORP" +:+ String slash "joe/x") = false /\
  PyStr.contains slash "CORP" = false /\
  PyStr.strip ("CORP" +:+ String slash "joe/x") = "CORP" +:+ String slash "joe/x" /\
  parse_ad_user ("CORP" +:+ String slash "joe/x") "" = Ok ("joe/x", "CORP").
Proof.
  assert (H1 : slash = backslash \/ (slash = slash /\
                 PyStr.contains backslash ("CORP" +:+ String slash "joe/x") = false))
    by (right; split; reflexivity).
  split; [exact H1|]. split; [reflexivity|]. split; [reflexivity|]. split; [reflexivity|].
  exact (parse_ad_user_netbios_split "CORP" "joe/x" "" slash H1 eq_refl eq_refl eq_refl).
Defined.

(** X3: a user name made only of whitespace passes the "must be specified"
    check: it strips to the empty username, which is accepted with the
    external domain when there is one. *)
Theorem parse_ad_user_blank_user (ad_user ad_domain : string) :
  PyStr.truthy ad_user = true -> PyStr.strip ad_user = EmptyString ->
  parse_ad_user ad_user ad_domain
  = if PyStr.truthy ad_domain then Ok (EmptyString, ad_domain)
    else Raise (ValueError "AD domain must be specified when using plain username: ").
Proof.
  intros Ht Hs. unfold parse_ad_user. cbv zeta. rewrite Ht, Hs.
  destruct (PyStr.truthy ad_domain); reflexivity.
Qed.

Lemma parse_ad_user_blank_user_witness :
  PyStr.truthy "  " = true /\ PyStr.strip "  " = EmptyString /\
  parse_ad_user "  " "corp.com" = Ok (EmptyString, "corp.com").
Proof.
  split; [reflexivity|]. split; [reflexivity|].
  exact (parse_ad_user_blank_user "  " "corp.com" eq_refl eq_refl).
Defined.

(** ** The LDAP search base *)

(** X4: the search base has one "dc=" component per dot-separated part of
    the search domain, in order, empty parts included. *)
Theorem search_base_of_components (comps : list string) :
  comps <> [] -> Forall (fun x => PyStr.contains dot x = false) comps ->
  search_base_of (PyStr.join "." comps) = PyStr.join "," (map (fun x => "dc=" +:+ x) comps).
Proof.
  intros Hne Hall. unfold search_base_of.
  change "." with (String dot EmptyString). rewrite split_join by assumption. reflexivity.
Qed.

Lemma search_base_of_components_witness :
  ["corp"; ""; "com"] <> [] /\
  Forall (fun x => PyStr.contains dot x = false) ["corp"; ""; "com"] /\
  search_base_of (PyStr.join "." ["corp"; ""; "com"]) = "dc=corp,dc=,dc=com".
Proof.
  assert (Hne : ["corp"; ""; "com"] <> []) by discriminate.
  assert (Hall : Forall (fun x => PyStr.contains dot x = false) ["corp"; ""; "com"])
    by (repeat apply List.Forall_cons; try apply List.Forall_nil; reflexivity).
  split; [exact Hne|]. split; [exact Hall|].
  exact (search_base_of_components ["corp"; ""; "com"] Hne Hall).
Defined.

(** ** query_ad_users: the failures *)

(** X5: an invalid user name, no search domain, no server or no password
    makes [query_ad_users] exit with status 1 without writing a file, whatever
    the directory would answer: it is never contacted. *)
Theorem query_ad_users_rejects_config
    (ldap_search : string -> string -> string -> string -> pyres (list ad_entry))
    (output_writable : bool)
    (ad_server ad_user ad_password ad_domain ad_search_domain output_file : string) :
  is_config_error (parse_ad_user ad_user ad_domain) = true \/
  PyStr.or ad_search_domain ad_domain = EmptyString \/
  ad_server = EmptyString \/ ad_password = EmptyString ->
  query_ad_users ldap_search output_writable ad_server ad_user ad_password ad_domain
    ad_search_domain output_file = QueryOutcome [] (Some 1%Z).
Proof.
  intros H. unfold query_ad_users, query_ad_users_body.
  destruct (parse_ad_user ad_user ad_domain) as [[u ud]|e]; [|reflexivity].
  cbn [mbind pyres_bind].
  destruct H as [H|[H|[H|H]]]; [discriminate H| | |].
  - rewrite H. reflexivity.
  - subst ad_server. destruct (PyStr.truthy (PyStr.or ad_search_domain ad_domain)); reflexivity.
  - subst ad_password. destruct (PyStr.truthy (PyStr.or ad_search_domain ad_domain));
      [|reflexivity].
    destruct (PyStr.truthy ad_server); reflexivity.
Qed.

Lemma query_ad_users_rejects_config_witness :
  (is_config_error (parse_ad_user "joe" "corp.com") = true \/
   PyStr.or "" "corp.com" = EmptyString \/ "ldap://dc1" = EmptyString \/ "" = EmptyString) /\
  query_ad_users sample_ldap true "ldap://dc1" "joe" "" "corp.com" "" "users.csv"
  = QueryOutcome [] (Some 1%Z).
Proof.
  assert (H : is_config_error (parse_ad_user "joe" "corp.com") = true \/
              PyStr.or "" "corp.com" = EmptyString \/ "ldap://dc1" = EmptyString \/
              "" = EmptyString) by (right; right; right; reflexivity).
  split; [exact H|].
  exact (query_ad_users_rejects_config sample_ldap true "ldap://dc1" "joe" "" "corp.com" ""
           "users.csv" H).
Defined.




(** ** The HTTP helpers *)

Lemma raise_for_status_failed r :
  request_failed r -> exists m, raise_for_status r = Raise (RequestException m).
Proof.
  destruct r as [|code body]; intros H; [eexists; reflexivity|].
  cbn in H. unfold raise_for_status.
  replace (400 <=? code)%Z with true by (symmetry; apply Z.leb_le; lia).
  replace (code <? 600)%Z with true by (symmetry; apply Z.ltb_lt; lia).
  eexists; reflexivity.
Qed.

(** X7: the token request fails softly ([None]) when the request fails or
    the body is not JSON, but a successful JSON response without
    "access_token" raises [KeyError], which the handler does not catch. *)
Theorem get_bearer_token_failures (client_id client_secret : string) (failed : http_result)
    (code : Z) (kvs : list (string * json)) :
  PyStr.truthy client_id = true -> PyStr.truthy client_secret = true ->
  request_failed failed -> (code < 400)%Z -> obj_get kvs "access_token" = None ->
  get_bearer_token client_id client_secret failed = Ok JNull /\
  get_bearer_token client_id client_secret (Response code None) = Ok JNull /\
  get_bearer_token client_id client_secret (Response code (Some (JObj kvs)))
  = Raise (KeyError "access_token").
Proof.
  intros Hi Hs Hf Hc Hk. unfold get_bearer_token. rewrite Hi, Hs. cbn [negb orb].
  destruct (raise_for_status_failed failed Hf) as [m Hm].
  rewrite Hm, !raise_for_status_ok by exact Hc. cbn [mbind pyres_bind response_json json_getitem].
  rewrite Hk. repeat split; reflexivity.
Qed.

Lemma get_bearer_token_failures_witness :
  PyStr.truthy "id" = true /\ PyStr.truthy "secret" = true /\
  request_failed (Response 401 None) /\ (200 < 400)%Z /\
  obj_get [("error", JStr "invalid_client")] "access_token" = None /\
  get_bearer_token "id" "secret" (Response 200 (Some (JObj [("error", JStr "invalid_client")])))
  = Raise (KeyError "access_token").
Proof.
  assert (Hf : request_failed (Response 401 None)) by (cbn; lia).
  assert (Hc : (200 < 400)%Z) by lia.
  split; [reflexivity|]. split; [reflexivity|]. split; [exact Hf|]. split; [exact Hc|].
  split; [reflexivity|].
  exact (proj2 (proj2 (get_bearer_token_failures "id" "secret" (Response 401 None) 200
                         [("error", JStr "invalid_client")] eq_refl eq_refl Hf Hc eq_refl))).
Defined.

(** X8: [create_lookup], [update_lookup] and [deploy_changes] never raise:
    they return [False] exactly when the request fails. *)
Theorem write_calls_never_raise (r : http_result) :
  (request_failed r ->
   create_lookup r = Ok false /\ update_lookup r = Ok false /\ deploy_changes r = Ok false) /\
  (~ request_failed r ->
   create_lookup r = Ok true /\ update_lookup r = Ok true /\ deploy_changes r = Ok true).
Proof.
  unfold create_lookup, update_lookup, deploy_changes, request_succeeds.
  destruct r as [|code body]; cbn [request_failed].
  - split; [intros _; repeat split; reflexivity | intros H; exfalso; exact (H I)].
  - unfold raise_for_status.
    destruct ((400 <=? code) && (code <? 600))%Z eqn:E.
    + apply andb_true_iff in E as [E1 E2]. apply Z.leb_le in E1. apply Z.ltb_lt in E2.
      split; [intros _; repeat split; reflexivity | intros H; exfalso; apply H; lia].
    + split; [|intros _; repeat split; reflexivity].
      intros H; exfalso.
      rewrite (proj2 (Z.leb_le _ _)), (proj2 (Z.ltb_lt _ _)) in E by lia. discriminate.
Qed.

(** X9: a failed upload request, or an upload answer that is not JSON, makes
    [upload_lookup_file] return [None]; a file that cannot be opened raises
    [OSError], which its handler does not catch. Either way [main] stops
    right after the upload with status 1. *)
Theorem upload_lookup_file_failures (lookup_filename : string) (r : http_result) :
  (request_failed r \/ exists code, (code < 400)%Z /\ r = Response code None) ->
  upload_lookup_file lookup_filename true r = Ok None /\
  upload_lookup_file lookup_filename false r = Raise (OSError lookup_filename) /\
  forall file_opens net, net CUpload = r ->
    main_sync lookup_filename file_opens net = ([CUpload], 1%Z).
Proof.
  intros H.
  assert (Hu : upload_lookup_file lookup_filename true r = Ok None).
  { unfold upload_lookup_file. cbn [negb].
    destruct H as [Hf | (code & Hc & ->)].
    - destruct (raise_for_status_failed r Hf) as [m Hm]. rewrite Hm. reflexivity.
    - rewrite raise_for_status_ok by exact Hc. reflexivity. }
  split; [exact Hu|]. split; [reflexivity|].
  intros fo net Hn. unfold main_sync. rewrite Hn.
  destruct fo; [rewrite Hu|]; reflexivity.
Qed.

Lemma upload_lookup_file_failures_witness :
  (request_failed (Response 413 None) \/ exists code, (code < 400)%Z /\ Response 413 None = Response code None) /\
  main_sync "users.csv" true (fun c => match c with CUpload => Response 413 None | _ => sample_net c end)
  = ([CUpload], 1%Z).
Proof.
  assert (H : request_failed (Response 413 None) \/
              exists code, (code < 400)%Z /\ Response 413 None = Response code None)
    by (left; cbn; lia).
  split; [exact H|].
  exact (proj2 (proj2 (upload_lookup_file_failures "users.csv" (Response 413 None) H)) true _ eq_refl).
Defined.

(** X10: for a successful commit response, a body without "items" raises
    [KeyError] and an empty "items" list raises [IndexError] (neither is
    caught by the handler); otherwise the result is the first item's
    "commit" when it is truthy, and [None] when it is absent or falsy. *)
Theorem commit_changes_response (code : Z) (kvs : list (string * json)) :
  (code < 400)%Z ->
  (obj_get kvs "items" = None ->
   commit_changes (Response code (Some (JObj kvs))) = Raise (KeyError "items")) /\
  (obj_get kvs "items" = Some (JArr []) ->
   commit_changes (Response code (Some (JObj kvs))) = Raise IndexError) /\
  (forall ikvs rest, obj_get kvs "items" = Some (JArr (JObj ikvs :: rest)) ->
   commit_changes (Response code (Some (JObj kvs)))
   = Ok (match obj_get ikvs "commit" with
         | Some c => if json_truthy c then Some c else None
         | None => None
         end)).
Proof.
  intros Hc. unfold commit_changes. rewrite raise_for_status_ok by exact Hc.
  cbn [mbind pyres_bind response_json json_getitem].
  split; [intros H; rewrite H; reflexivity|]. split; [intros H; rewrite H; reflexivity|].
  intros ikvs rest H. rewrite H. cbn [json_first mbind pyres_bind json_get].
  destruct (obj_get ikvs "commit") as [c|]; [destruct (json_truthy c)|]; reflexivity.
Qed.

Lemma commit_changes_response_witness :
  (200 < 400)%Z /\
  commit_changes (Response 200 (Some (JObj [("items", JArr [])]))) = Raise IndexError.
Proof.
  assert (Hc : (200 < 400)%Z) by lia. split; [exact Hc|].
  exact (proj1 (proj2 (commit_changes_response 200 [("items", JArr [])] Hc)) eq_refl).
Defined.

Lemma any_id_objects fn (items : list (list (string * json))) :
  any_id fn (map JObj items)
  = Ok (existsb (fun ikvs => match obj_get ikvs "id" with
                             | Some (JStr s) => bool_decide (s = fn)
                             | _ => false
                             end) items).
Proof.
  induction items as [|ikvs items IH]; [reflexivity|].
  cbn [map any_id json_get mbind pyres_bind existsb].
  destruct (obj_get ikvs "id") as [[| | |s| |]|]; cbn [orb]; try exact IH.
  destruct (bool_decide (s = fn)); [reflexivity|exact IH].
Qed.

(** X11: for a successful response whose "items" is a list of objects, the
    existence check answers whether one of them has the id equal to the
    lookup file name (a string, compared exactly). *)
Theorem check_lookup_exists_items (lookup_filename : string) (code : Z)
    (kvs : list (string * json)) (items : list (list (string * json))) :
  (code < 400)%Z -> obj_get kvs "items" = Some (JArr (map JObj items)) ->
  check_lookup_exists lookup_filename (Response code (Some (JObj kvs)))
  = Ok (existsb (fun ikvs => match obj_get ikvs "id" with
                             | Some (JStr s) => bool_decide (s = lookup_filename)
                             | _ => false
                             end) items).
Proof.
  intros Hc Hi. unfold check_lookup_exists. rewrite raise_for_status_ok by exact Hc.
  cbn [mbind pyres_bind response_json].
  destruct kvs as [|kv kvs]; [discriminate Hi|]. cbn [json_truthy negb json_contains].
  rewrite Hi. cbn [json_getitem]. rewrite Hi.
  destruct items as [|ikvs items]; [reflexivity|].
  transitivity (except_request false (any_id lookup_filename (map JObj (ikvs :: items))));
    [reflexivity|].
  rewrite any_id_objects. reflexivity.
Qed.

Lemma check_lookup_exists_items_witness :
  (200 < 400)%Z /\
  obj_get [("items", JArr [JObj [("id", JStr "Users.csv")]; JObj [("id", JStr "users.csv")]])] "items"
  = Some (JArr (map JObj [[("id", JStr "Users.csv")]; [("id", JStr "users.csv")]])) /\
  check_lookup_exists "users.csv"
    (Response 200 (Some (JObj [("items", JArr [JObj [("id", JStr "Users.csv")];
                                               JObj [("id", JStr "users.csv")]])])))
  = Ok true.
Proof.
  assert (Hc : (200 < 400)%Z) by lia. split; [exact Hc|]. split; [reflexivity|].
  rewrite (check_lookup_exists_items "users.csv" 200
             [("items", JArr [JObj [("id", JStr "Users.csv")]; JObj [("id", JStr "users.csv")]])]
             [[("id", JStr "Users.csv")]; [("id", JStr "users.csv")]] Hc eq_refl).
  reflexivity.
Defined.

(** ** main: the order of the calls *)

Local Ltac sync_leaf k :=
  split; [exists k; split; [lia|reflexivity] | cbn [snd]; intros Hz; discriminate Hz].

Lemma main_sync_shape (lookup_filename : string) (file_opens : bool)
    (net : api_call -> http_result) :
  (exists k, (1 <= k <= 5)%nat /\
     fst (main_sync lookup_filename file_opens net)
     = firstn k [CUpload; CCheck; sync_path lookup_filename net; CCommit; CDeploy]) /\
  (snd (main_sync lookup_filename file_opens net) = 0%Z ->
     fst (main_sync lookup_filename file_opens net)
     = [CUpload; CCheck; sync_path lookup_filename net; CCommit; CDeploy] /\
     (exists c, commit_changes (net CCommit) = Ok (Some c)) /\
     deploy_changes (net CDeploy) = Ok true).
Proof.
  unfold main_sync, sync_path.
  destruct (upload_lookup_file lookup_filename file_opens (net CUpload)) as [temp|e];
    [|sync_leaf 1%nat].
  destruct temp as [t|]; [destruct (json_truthy t)|]; cbn [negb]; [|sync_leaf 1%nat..].
  destruct (check_lookup_exists lookup_filename (net CCheck)) as [[|]|e]; cbn [choose_path];
    [| |sync_leaf 2%nat].
  - destruct (update_lookup (net CUpdate)) as [[|]|e]; [|sync_leaf 3%nat..].
    destruct (commit_changes (net CCommit)) as [[c|]|e]; [|sync_leaf 4%nat..].
    destruct (deploy_changes (net CDeploy)) as [[|]|e]; [|sync_leaf 5%nat..].
    split; [exists 5%nat; split; [lia|reflexivity]|].
    intros _. split; [reflexivity|]. split; [exists c; reflexivity | reflexivity].
  - destruct (create_lookup (net CCreate)) as [[|]|e]; [|sync_leaf 3%nat..].
    destruct (commit_changes (net CCommit)) as [[c|]|e]; [|sync_leaf 4%nat..].
    destruct (deploy_changes (net CDeploy)) as [[|]|e]; [|sync_leaf 5%nat..].
    split; [exists 5%nat; split; [lia|reflexivity]|].
    intros _. split; [reflexivity|]. split; [exists c; reflexivity | reflexivity].
Qed.

(** X12: [main]'s lookup requests are always a prefix of upload, existence
    check, then update when the check answered [True] and create otherwise,
    commit, deploy: a failing step ends the run, the update and the create
    are never both made, and exit status 0 needs all five, with a commit id
    and a successful deployment. *)
Theorem main_sync_calls (lookup_filename : string) (file_opens : bool)
    (net : api_call -> http_result) :
  (exists k, (1 <= k <= 5)%nat /\
     fst (main_sync lookup_filename file_opens net)
     = firstn k [CUpload; CCheck; sync_path lookup_filename net; CCommit; CDeploy]) /\
  ~ (In CCreate (fst (main_sync lookup_filename file_opens net)) /\
     In CUpdate (fst (main_sync lookup_filename file_opens net))) /\
  (snd (main_sync lookup_filename file_opens net) = 0%Z ->
     fst (main_sync lookup_filename file_opens net)
     = [CUpload; CCheck; sync_path lookup_filename net; CCommit; CDeploy] /\
     (exists c, commit_changes (net CCommit) = Ok (Some c)) /\
     deploy_changes (net CDeploy) = Ok true).
Proof.
  destruct (main_sync_shape lookup_filename file_opens net) as [[k [Hk Htr]] H0].
  split; [exists k; split; assumption|]. split; [|exact H0].
  rewrite Htr.
  set (L := [CUpload; CCheck; sync_path lookup_filename net; CCommit; CDeploy]).
  assert (Hsub : forall x, In x (firstn k L) -> In x L).
  { intros x Hx. rewrite <- (List.firstn_skipn k L). apply List.in_or_app. left. exact Hx. }
  intros [H1 H2]. apply Hsub in H1. apply Hsub in H2. unfold L in H1, H2.
  destruct H1 as [H1|[H1|[H1|[H1|[H1|[]]]]]]; try discriminate H1;
  destruct H2 as [H2|[H2|[H2|[H2|[H2|[]]]]]]; try discriminate H2.
  congruence.
Qed.

Lemma query_ad_users_file
    (ldap_search : string -> string -> string -> string -> pyres (list ad_entry))
    (output_writable : bool) (ad_server ad_user ad_password ad_domain ad_search_domain
    output_file : string) fs :
  query_ad_users ldap_search output_writable ad_server ad_user ad_password ad_domain
    ad_search_domain output_file = QueryOutcome fs None ->
  exists rows, fs = [(output_file, rows)].
Proof.
  unfold query_ad_users, query_ad_users_body.
  destruct (parse_ad_user ad_user ad_domain) as [[u ud]|err]; cbn [mbind pyres_bind];
    [|intros Hq; discriminate Hq].
  destruct (PyStr.truthy (PyStr.or ad_search_domain ad_domain)); cbn [negb];
    [|intros Hq; discriminate Hq].
  destruct (PyStr.truthy ad_server); cbn [negb]; [|intros Hq; discriminate Hq].
  destruct (PyStr.truthy ad_password); cbn [negb]; [|intros Hq; discriminate Hq].
  match goal with |- context [ldap_search ?a ?b ?c ?d] => destruct (ldap_search a b c d) end;
    [|intros Hq; discriminate Hq].
  destruct output_writable; cbn [negb]; [|intros Hq; discriminate Hq].
  intros Hq. injection Hq as <-. eexists; reflexivity.
Qed.

(** X13: [main] makes a lookup request only after the directory query has
    written the CSV it uploads and a truthy token was obtained. *)
Theorem main_run_api_requires_csv_and_token
    (ldap_search : string -> string -> string -> string -> pyres (list ad_entry))
    (output_writable : bool) (token_resp : http_result) (file_opens : bool)
    (net : api_call -> http_result) (args : Args.t) (file : option (gmap string string))
    (c : api_call) :
  In (SApi c) (fst (main_run ldap_search output_writable token_resp file_opens net args file)) ->
  exists st rows t, resolve_config args file = Ok st /\
    query_ad_users ldap_search output_writable (Settings.ad_server st) (Settings.ad_user st)
      (Settings.ad_password st) (Settings.ad_domain st) (Settings.ad_search_domain st)
      (Settings.lookup_filename st)
    = QueryOutcome [(Settings.lookup_filename st, rows)] None /\
    get_bearer_token (Settings.client_id st) (Settings.client_secret st) token_resp = Ok t /\
    json_truthy t = true.
Proof.
  unfold main_run. destruct (resolve_config args file) as [st|e]; [|intros []].
  destruct (query_ad_users ldap_search output_writable _ _ _ _ _ _) as [fs [code|]] eqn:Hq;
    cbn [exit_status].
  { intros [H|[]]; discriminate H. }
  destruct (query_ad_users_file _ _ _ _ _ _ _ _ _ Hq) as [rows ->].
  destruct (get_bearer_token _ _ token_resp) as [t|e] eqn:Ht;
    [|intros [H|[H|[]]]; discriminate H].
  destruct (json_truthy t) eqn:Htt; cbn [negb]; [|intros [H|[H|[]]]; discriminate H].
  destruct (json_slice t); [|intros [H|[H|[]]]; discriminate H].
  intros _. exists st, rows, t. split; [reflexivity|]. split; [exact Hq|].
  split; [exact Ht|exact Htt].
Qed.

Lemma main_run_api_requires_csv_and_token_witness :
  In (SApi CUpload) (fst (main_run sample_ldap true sample_token true sample_net sample_args None)) /\
  exists st rows t, resolve_config sample_args None = Ok st /\
    query_ad_users sample_ldap true (Settings.ad_server st) (Settings.ad_user st)
      (Settings.ad_password st) (Settings.ad_domain st) (Settings.ad_search_domain st)
      (Settings.lookup_filename st)
    = QueryOutcome [(Settings.lookup_filename st, rows)] None /\
    get_bearer_token (Settings.client_id st) (Settings.client_secret st) sample_token = Ok t /\
    json_truthy t = true.
Proof.
  assert (H : In (SApi CUpload)
                (fst (main_run sample_ldap true sample_token true sample_net sample_args None)))
    by (vm_compute; right; right; left; reflexivity).
  split; [exact H|].
  exact (main_run_api_requires_csv_and_token sample_ldap true sample_token true sample_net
           sample_args None CUpload H).
Defined.

(** X14: [main] exits with status 0 only after the directory query, the
    token request and all five lookup requests, in order. *)
Theorem main_run_exit_zero
    (ldap_search : string -> string -> string -> string -> pyres (list ad_entry))
    (output_writable : bool) (token_resp : http_result) (file_opens : bool)
    (net : api_call -> http_result) (args : Args.t) (file : option (gmap string string)) :
  snd (main_run ldap_search output_writable token_resp file_opens net args file) = 0%Z ->
  exists st, resolve_config args file = Ok st /\
    fst (main_run ldap_search output_writable token_resp file_opens net args file)
    = [SQuery; SToken; SApi CUpload; SApi CCheck;
       SApi (sync_path (Settings.lookup_filename st) net); SApi CCommit; SApi CDeploy].
Proof.
  unfold main_run. destruct (resolve_config args file) as [st|e]; [|intros Hz; discriminate Hz].
  unfold query_ad_users.
  destruct (query_ad_users_body ldap_search output_writable _ _ _ _ _ _);
    cbn [exit_status]; [|intros Hz; discriminate Hz].
  destruct (get_bearer_token _ _ token_resp) as [t|e]; [|intros Hz; discriminate Hz].
  destruct (json_truthy t); cbn [negb]; [|intros Hz; discriminate Hz].
  destruct (json_slice t); [|intros Hz; discriminate Hz].
  pose proof (main_sync_shape (Settings.lookup_filename st) file_opens net) as [_ H0].
  destruct (main_sync (Settings.lookup_filename st) file_opens net) as [calls code] eqn:Hm.
  cbn [fst snd] in *. intros Hz. destruct (H0 Hz) as [Htr _].
  exists st. split; [reflexivity|]. rewrite Htr. reflexivity.
Qed.

Lemma main_run_exit_zero_witness :
  snd (main_run sample_ldap true sample_token true sample_net sample_args None) = 0%Z /\
  exists st, resolve_config sample_args None = Ok st /\
    fst (main_run sample_ldap true sample_token true sample_net sample_args None)
    = [SQuery; SToken; SApi CUpload; SApi CCheck;
       SApi (sync_path (Settings.lookup_filename st) sample_net); SApi CCommit; SApi CDeploy].
Proof.
  assert (H : snd (main_run sample_ldap true sample_token true sample_net sample_args None) = 0%Z)
    by (vm_compute; reflexivity).
  split; [exact H|].
  exact (main_run_exit_zero sample_ldap true sample_token true sample_net sample_args None H).
Defined.

(** X15: with an empty client id or secret, [get_bearer_token] raises
    [ValueError] before any request, and [main] exits with status 1 without
    making any lookup request. *)
Theorem main_run_missing_credentials
    (ldap_search : string -> string -> string -> string -> pyres (list ad_entry))
    (output_writable : bool) (token_resp : http_result) (file_opens : bool)
    (net : api_call -> http_result) (args : Args.t) (file : option (gmap string string))
    (st : Settings.t) :
  resolve_config args file = Ok st ->
  PyStr.truthy (Settings.client_id st) = false \/ PyStr.truthy (Settings.client_secret st) = false ->
  (exists msg, get_bearer_token (Settings.client_id st) (Settings.client_secret st) token_resp
               = Raise (ValueError msg)) /\
  snd (main_run ldap_search output_writable token_resp file_opens net args file) = 1%Z /\
  forall c, ~ In (SApi c) (fst (main_run ldap_search output_writable token_resp file_opens net args file)).
Proof.
  intros Hr Hcred.
  assert (Hg : exists msg, get_bearer_token (Settings.client_id st) (Settings.client_secret st)
                             token_resp = Raise (ValueError msg)).
  { unfold get_bearer_token. destruct Hcred as [H|H]; rewrite H; cbn [negb];
      rewrite ?orb_true_r; cbn [orb]; eexists; reflexivity. }
  split; [exact Hg|]. destruct Hg as [msg Hg].
  unfold main_run. rewrite Hr. unfold query_ad_users.
  destruct (query_ad_users_body ldap_search output_writable _ _ _ _ _ _); cbn [exit_status];
    [|split; [reflexivity | intros c [H|[]]; discriminate H]].
  rewrite Hg. split; [reflexivity | intros c [H|[H|[]]]; discriminate H].
Qed.

Lemma main_run_missing_credentials_witness :
  resolve_config sample_args_no_id None
  = Ok (Settings.mk "" "secret" "org" "users.csv" "default" "ldap://dc1" "joe" "pw" "corp.com" "") /\
  snd (main_run sample_ldap true sample_token true sample_net sample_args_no_id None) = 1%Z.
Proof.
  assert (Hr : resolve_config sample_args_no_id None
               = Ok (Settings.mk "" "secret" "org" "users.csv" "default" "ldap://dc1" "joe" "pw"
                       "corp.com" "")) by (vm_compute; reflexivity).
  assert (Hc : PyStr.truthy "" = false \/ PyStr.truthy "secret" = false) by (left; reflexivity).
  split; [exact Hr|].
  exact (proj1 (proj2 (main_run_missing_credentials sample_ldap true sample_token true sample_net
                         sample_args_no_id None _ Hr Hc))).
Defined.

(** ** Configuration values and '%' *)

Lemma length_app (a b : string) : length (a +:+ b) = (length a + length b)%nat.
Proof. induction a as [|c a IH]; [reflexivity|]. rewrite app_String. cbn [length]. lia. Qed.

Lemma interp_loop_escape rec sec b s :
  (length (escape_pct s) < b)%nat -> ConfigParser.interp_loop rec sec b (escape_pct s) = Ok s.
Proof.
  revert b. induction s as [|c s IH]; intros b Hb; destruct b as [|b];
    [cbn in Hb; lia | reflexivity | |].
  - cbn [escape_pct] in Hb. destruct (decide (c = "%"%char)); cbn [length] in Hb; lia.
  - cbn [escape_pct] in *. destruct (decide (c = "%"%char)) as [->|Hc].
    + transitivity (t ← ConfigParser.interp_loop rec sec b (escape_pct s); Ok (String "%" t));
        [reflexivity|].
      cbn [length] in Hb. rewrite IH by lia. reflexivity.
    + cbn [ConfigParser.interp_loop].
      rewrite (decide_False (P := c = "%"%char)) by exact Hc.
      cbn [length] in Hb. rewrite IH by lia. reflexivity.
Qed.

(** X16: a config value written with every '%' doubled reads back as the
    literal text, so any secret can be stored in the config file. *)
Theorem config_get_escaped (sec : gmap string string) (key s : string) :
  sec !! ConfigParser.lower key = Some (escape_pct s) -> ConfigParser.get sec key = Ok s.
Proof.
  intros H. unfold ConfigParser.get. rewrite H. cbn [ConfigParser.interpolate_some].
  apply interp_loop_escape. lia.
Qed.

Lemma config_get_escaped_witness :
  escaped_section !! ConfigParser.lower "client_secret" = Some (escape_pct "p%(s)s%") /\
  ConfigParser.get escaped_section "client_secret" = Ok "p%(s)s%".
Proof.
  assert (H : escaped_section !! ConfigParser.lower "client_secret"
              = Some (escape_pct "p%(s)s%")) by (vm_compute; reflexivity).
  split; [exact H|]. exact (config_get_escaped _ "client_secret" "p%(s)s%" H).
Defined.

Lemma interp_loop_stray_pct rec sec b p c post :
  c <> "%"%char -> c <> "("%char -> (length (escape_pct p) < b)%nat ->
  ConfigParser.interp_loop rec sec b (escape_pct p +:+ String "%" (String c post))
  = Raise (InterpolationError "'%' must be followed by '%' or '('").
Proof.
  intros Hc1 Hc2. revert b. induction p as [|d p IH]; intros b Hb.
  - destruct b as [|b]; [cbn in Hb; lia|].
    destruct c as [[] [] [] [] [] [] [] []]; try reflexivity;
      exfalso; first [apply Hc1; reflexivity | apply Hc2; reflexivity].
  - destruct b as [|b]; [cbn in Hb; lia|].
    cbn [escape_pct] in *. destruct (decide (d = "%"%char)) as [->|Hd].
    + rewrite !app_String.
      transitivity (t ← ConfigParser.interp_loop rec sec b
                          (escape_pct p +:+ String "%" (String c post)); Ok (String "%" t));
        [reflexivity|].
      cbn [length] in Hb. rewrite IH by lia. reflexivity.
    + rewrite app_String. cbn [ConfigParser.interp_loop].
      rewrite (decide_False (P := d = "%"%char)) by exact Hd.
      cbn [length] in Hb. rewrite IH by lia. reflexivity.
Qed.

Lemma resolve_config_field_raise (a : Args.t) (file : option (gmap string string)) (f : field) e :
  arg_or (cli_of f a) (load_config file) (key_of f) = Raise e ->
  exists e', resolve_config a file = Raise e'.
Proof.
  intros H. unfold resolve_config.
  destruct f; cbn [cli_of key_of] in H;
  repeat match goal with
  | |- context [arg_or ?x ?c ?k] =>
      lazymatch goal with
      | H : arg_or x c k = _ |- _ => rewrite H; cbn [mbind pyres_bind]; eexists; reflexivity
      | _ => destruct (arg_or x c k); cbn [mbind pyres_bind]; [|eexists; reflexivity]
      end
  end.
Qed.

(** X17: a config-file value made of a literal text with every '%' doubled,
    then a '%' followed by a character other than '%' or '(' (as in
    "p%ss" or "a%%b%c"), makes configparser raise when the value is read;
    [main] then exits with status 1 before querying the directory, unless
    the command line gives that setting a non-empty value. *)
Theorem main_run_stray_pct
    (ldap_search : string -> string -> string -> string -> pyres (list ad_entry))
    (output_writable : bool) (token_resp : http_result) (file_opens : bool)
    (net : api_call -> http_result) (args : Args.t) (sec : gmap string string)
    (f : field) (pre post : string) (c : ascii) :
  (cli_of f args = None \/ cli_of f args = Some EmptyString) ->
  sec !! key_of f = Some (escape_pct pre +:+ String "%" (String c post)) ->
  c <> "%"%char -> c <> "("%char ->
  main_run ldap_search output_writable token_resp file_opens net args (Some sec) = ([], 1%Z).
Proof.
  intros Hcli Hv Hc1 Hc2.
  assert (Hg : arg_or (cli_of f args) (load_config (Some sec)) (key_of f)
               = Raise (InterpolationError "'%' must be followed by '%' or '('")).
  { assert (Hget : ConfigParser.get (load_config (Some sec)) (key_of f)
                   = Raise (InterpolationError "'%' must be followed by '%' or '('")).
    { unfold ConfigParser.get. rewrite lower_key_of. cbn [load_config].
      rewrite lookup_union, Hv, union_Some_l. cbn [ConfigParser.interpolate_some].
      apply interp_loop_stray_pct; try assumption.
      rewrite length_app. cbn [length]. lia. }
    destruct Hcli as [-> | ->]; exact Hget. }
  destruct (resolve_config_field_raise args (Some sec) f _ Hg) as [e He].
  unfold main_run. rewrite He. reflexivity.
Qed.

Lemma main_run_stray_pct_witness :
  (cli_of FClientSecret sample_args_no_secret = None \/
   cli_of FClientSecret sample_args_no_secret = Some EmptyString) /\
  stray_pct_section !! key_of FClientSecret = Some (escape_pct "a%b" +:+ String "%" (String "c" "")) /\
  main_run sample_ldap true sample_token true sample_net sample_args_no_secret
    (Some stray_pct_section) = ([], 1%Z).
Proof.
  assert (Hcli : cli_of FClientSecret sample_args_no_secret = None \/
                 cli_of FClientSecret sample_args_no_secret = Some EmptyString)
    by (left; reflexivity).
  assert (Hv : stray_pct_section !! key_of FClientSecret
               = Some (escape_pct "a%b" +:+ String "%" (String "c" ""))) by (vm_compute; reflexivity).
  split; [exact Hcli|]. split; [exact Hv|].
  exact (main_run_stray_pct sample_ldap true sample_token true sample_net _ _ FClientSecret
           "a%b" "" "c" Hcli Hv ltac:(discriminate) ltac:(discriminate)).
Defined.

(** ** NDJSON: failures and blank bodies *)

Lemma parse_lines_app (json_loads : string -> pyres json) acc pre post :
  parse_lines json_loads acc (pre ++ post)%list
  = (r ← parse_lines json_loads acc pre; parse_lines json_loads r post).
Proof.
  revert acc. induction pre as [|l pre IH]; intros acc; [reflexivity|].
  cbn [List.app parse_lines].
  destruct (PyStr.truthy (PyStr.strip l)); [|apply IH].
  destruct (json_loads l); cbn [mbind pyres_bind]; [apply IH|reflexivity].
Qed.

(** X18: one non-blank line that [json.loads] rejects makes the whole
    results parse raise its error: no partial results are kept. *)
Theorem parse_results_malformed_line (json_loads : string -> pyres json) (text : string)
    (pre post : list string) (line : string) (res : list json) (e : exn) :
  ndjson_lines text = (pre ++ line :: post)%list ->
  parse_lines json_loads [] pre = Ok res ->
  is_blank line = false -> json_loads line = Raise e ->
  parse_results json_loads text = Raise e.
Proof.
  intros Hl Hpre Hb He. unfold parse_results. rewrite Hl, parse_lines_app, Hpre.
  cbn [mbind pyres_bind parse_lines]. unfold is_blank in Hb.
  destruct (PyStr.truthy (PyStr.strip line)); [|discriminate Hb].
  rewrite He. reflexivity.
Qed.

Definition malformed_results : string :=
  sample_line "1" +:+ String newline EmptyString +:+ "oops" +:+ String newline EmptyString +:+ sample_line "2".

Lemma parse_results_malformed_line_witness :
  ndjson_lines malformed_results = ([sample_line "1"] ++ "oops" :: [sample_line "2"])%list /\
  parse_lines MiniJson.loads [] [sample_line "1"] = Ok [JObj [("a", JNum 1)]] /\
  is_blank "oops" = false /\ MiniJson.loads "oops" = Raise (ValueError "Expecting value") /\
  parse_results MiniJson.loads malformed_results = Raise (ValueError "Expecting value").
Proof.
  assert (H1 : ndjson_lines malformed_results = ([sample_line "1"] ++ "oops" :: [sample_line "2"])%list)
    by (vm_compute; reflexivity).
  assert (H2 : parse_lines MiniJson.loads [] [sample_line "1"] = Ok [JObj [("a", JNum 1)]])
    by (vm_compute; reflexivity).
  assert (H3 : MiniJson.loads "oops" = Raise (ValueError "Expecting value"))
    by (vm_compute; reflexivity).
  split; [exact H1|]. split; [exact H2|]. split; [reflexivity|]. split; [exact H3|].
  exact (parse_results_malformed_line MiniJson.loads malformed_results [sample_line "1"]
           [sample_line "2"] "oops" _ _ H1 H2 eq_refl H3).
Defined.

(** ** Building the table *)

Lemma add_columns_mono cols kvs c : In c cols -> In c (add_columns cols kvs).
Proof.
  revert cols. induction kvs as [|[k v] kvs IH]; intros cols H; cbn [add_columns]; [exact H|].
  apply IH. case_bool_decide; [exact H|]. apply List.in_or_app. left. exact H.
Qed.

Lemma add_columns_keys cols kvs k : In k (map fst kvs) -> In k (add_columns cols kvs).
Proof.
  revert cols. induction kvs as [|[k' v] kvs IH]; intros cols H; [destruct H|].
  cbn [add_columns]. destruct H as [Hk|H]; [|apply IH, H].
  cbn [fst] in Hk. subst k'. apply add_columns_mono.
  case_bool_decide as Hin; [apply list_elem_of_In, Hin|].
  apply List.in_or_app. right. left. reflexivity.
Qed.

Lemma fold_columns_mono recs acc c : In c acc -> In c (fold_left add_columns recs acc).
Proof.
  revert acc. induction recs as [|kvs recs IH]; intros acc H; [exact H|].
  cbn [fold_left]. apply IH, add_columns_mono, H.
Qed.

Lemma fold_columns_keys recs acc kvs k :
  In kvs recs -> In k (map fst kvs) -> In k (fold_left add_columns recs acc).
Proof.
  revert acc. induction recs as [|kvs' recs IH]; intros acc Hin Hk; [destruct Hin|].
  cbn [fold_left]. destruct Hin as [->|Hin].
  - apply fold_columns_mono, add_columns_keys, Hk.
  - exact (IH _ Hin Hk).
Qed.

Lemma obj_get_key kvs k v : obj_get kvs k = Some v -> In k (map fst kvs).
Proof.
  induction kvs as [|[k' v'] kvs IH]; cbn [obj_get]; [discriminate|].
  destruct (decide (k = k')) as [->|]; intros H; [left; reflexivity|right; apply IH, H].
Qed.

Lemma combine_map_self {B} (cols : list string) (f : string -> B) :
  combine cols (map f cols) = map (fun c => (c, f c)) cols.
Proof. induction cols as [|c cols IH]; [reflexivity|]. cbn. rewrite IH. reflexivity. Qed.

Lemma drop_record_row (rm cols : list string) (kvs : record) :
  map snd (List.filter (fun cv => negb (bool_decide (cv.1 ∈ rm))) (combine cols (record_row cols kvs)))
  = record_row (List.filter (fun c => negb (bool_decide (c ∈ rm))) cols) kvs.
Proof.
  unfold record_row. rewrite combine_map_self.
  induction cols as [|c cols IH]; [reflexivity|]. cbn [map List.filter fst].
  destruct (bool_decide (c ∈ rm)); cbn [negb map snd]; [exact IH|]. f_equal. exact IH.
Qed.

Lemma filter_map_comm {A B} (p : B -> bool) (f : A -> B) (l : list A) :
  List.filter p (map f l) = map f (List.filter (fun x => p (f x)) l).
Proof.
  induction l as [|x l IH]; [reflexivity|]. cbn [map List.filter].
  destruct (p (f x)); cbn [map]; [f_equal|]; exact IH.
Qed.

Lemma ltb_length_filter {A} (p : A -> bool) (l : list A) :
  (0 <? List.length (List.filter p l))%nat = existsb p l.
Proof.
  induction l as [|x l IH]; [reflexivity|]. cbn [List.filter existsb].
  destruct (p x); [reflexivity|exact IH].
Qed.

Lemma row_has_data (recs : list record) (kvs : record) :
  In kvs recs ->
  (0 <? List.length (List.filter (fun c => negb (isna c))
      (record_row (List.filter (fun c => negb (bool_decide (c ∈ columns_to_remove)))
                               (record_columns recs)) kvs)))%nat
  = record_has_data kvs.
Proof.
  intros Hin. rewrite ltb_length_filter. unfold record_has_data, record_row.
  apply Bool.eq_true_iff_eq. rewrite !existsb_exists. split.
  - intros (x & Hx & Hna). apply List.in_map_iff in Hx as (c & <- & Hc).
    apply List.filter_In in Hc as [Hc Hkeep].
    destruct (obj_get kvs c) as [v|] eqn:Hv; [|discriminate Hna].
    exists c. split; [exact (obj_get_key _ _ _ Hv)|].
    rewrite Hkeep, Hv. exact Hna.
  - intros (k & Hk & Hp). apply andb_true_iff in Hp as [Hkeep Hv].
    destruct (obj_get kvs k) as [v|] eqn:Ev; [|discriminate Hv].
    exists (Val v). split; [|exact Hv].
    apply List.in_map_iff. exists k. rewrite Ev. split; [reflexivity|].
    apply List.filter_In. split; [|exact Hkeep].
    exact (fold_columns_keys recs [] kvs k Hin Hk).
Qed.

(** X19: the table handed to Power BI has the records' keys, in order of
    first appearance, without the five job columns; it has one row per
    record holding a non-null value under a kept key, in record order,
    giving that record's value in each kept column ([NaN] where it has
    none). A record with only job fields or nulls gives no row. *)
Theorem build_table_spec (recs : list record) :
  columns (build_table recs)
  = List.filter (fun c => negb (bool_decide (c ∈ columns_to_remove))) (record_columns recs) /\
  rows (build_table recs)
  = map (record_row (columns (build_table recs))) (List.filter record_has_data recs).
Proof.
  split; [reflexivity|].
  unfold build_table, dropna_all, drop_columns, frame_of_records. cbn [columns rows].
  rewrite List.map_map.
  rewrite (List.map_ext _ _ (drop_record_row columns_to_remove (record_columns recs))).
  rewrite filter_map_comm. f_equal.
  apply List.filter_ext_in. intros kvs Hin. apply row_has_data, Hin.
Qed.

(** X20: [drop(columns=..., errors='ignore')] leaves a well-formed frame
    unchanged when none of the listed columns is present. *)
Theorem drop_columns_absent (cols : list string) (df : frame) :
  Forall (fun r => List.length r = List.length (columns df)) (rows df) ->
  Forall (fun c => c ∉ cols) (columns df) ->
  drop_columns cols df = df.
Proof.
  destruct df as [cs rs]. cbn [columns rows]. intros Hrows Hcols. unfold drop_columns.
  cbn [columns rows].
  assert (Hkeep : forall c, In c cs -> negb (bool_decide (c ∈ cols)) = true).
  { intros c Hc. rewrite List.Forall_forall in Hcols.
    rewrite bool_decide_eq_false_2 by exact (Hcols c Hc). reflexivity. }
  assert (Hall : forall {A} (p : A -> bool) l, (forall x, In x l -> p x = true) -> List.filter p l = l).
  { intros A p l Hp. induction l as [|x l IH]; [reflexivity|]. cbn [List.filter].
    rewrite (Hp x (or_introl eq_refl)). f_equal. apply IH. intros y Hy. apply Hp. right. exact Hy. }
  f_equal; [apply Hall, Hkeep|].
  transitivity (map (fun r : list cell => r) rs); [|apply List.map_id].
  apply List.map_ext_in. intros r Hr.
  rewrite List.Forall_forall in Hrows. specialize (Hrows r Hr).
  rewrite Hall.
  - clear Hr Hkeep Hall Hcols. revert r Hrows. induction cs as [|c cs IH]; intros [|x r] Hl;
      try discriminate Hl; [reflexivity|]. cbn. f_equal. apply IH. cbn [List.length] in Hl. injection Hl as Hl. exact Hl.
  - intros [c x] Hcx. apply Hkeep. exact (List.in_combine_l _ _ _ _ Hcx).
Qed.

Lemma drop_columns_absent_witness :
  Forall (fun r => List.length r = List.length (columns (frame_of_records [[("a", JNum 1)]])))
         (rows (frame_of_records [[("a", JNum 1)]])) /\
  Forall (fun c => c ∉ columns_to_remove) (columns (frame_of_records [[("a", JNum 1)]])) /\
  drop_columns columns_to_remove (frame_of_records [[("a", JNum 1)]])
  = frame_of_records [[("a", JNum 1)]].
Proof.
  assert (H1 : Forall (fun r => List.length r = List.length (columns (frame_of_records [[("a", JNum 1)]])))
                      (rows (frame_of_records [[("a", JNum 1)]])))
    by (apply List.Forall_cons; [reflexivity|apply List.Forall_nil]).
  assert (H2 : Forall (fun c => c ∉ columns_to_remove) (columns (frame_of_records [[("a", JNum 1)]]))).
  { apply List.Forall_cons; [|apply List.Forall_nil].
    apply (bool_decide_eq_false_1 _). vm_compute. reflexivity. }
  split; [exact H1|]. split; [exact H2|].
  exact (drop_columns_absent columns_to_remove _ H1 H2).
Defined.

(** X21: a blank results body (empty or whitespace only) parses to no
    records without error, and gives a table with no columns and no rows. *)
Theorem parse_results_blank_text (json_loads : string -> pyres json) (text : string) :
  PyStr.strip text = EmptyString ->
  parse_results json_loads text = Ok [] /\ build_table [] = Frame [] [].
Proof.
  intros H. unfold parse_results, ndjson_lines. rewrite H. split; reflexivity.
Qed.

Lemma parse_results_blank_text_witness :
  PyStr.strip (String newline " ") = EmptyString /\
  parse_results MiniJson.loads (String newline " ") = Ok [].
Proof.
  split; [reflexivity|].
  exact (proj1 (parse_results_blank_text MiniJson.loads (String newline " ") eq_refl)).
Defined.

(** ** The commit payload *)

Lemma app_assoc_s (a b c : string) : a +:+ (b +:+ c) = (a +:+ b) +:+ c.
Proof. induction a as [|d a IH]; [reflexivity|]. rewrite !app_String, IH. reflexivity. Qed.

Lemma app_nil_s (a : string) : a +:+ EmptyString = a.
Proof. induction a as [|d a IH]; [reflexivity|]. rewrite app_String, IH. reflexivity. Qed.

Lemma rev_app_spec s acc : PyStr.rev_app s acc = PyStr.rev s +:+ acc.
Proof.
  unfold PyStr.rev. revert acc. induction s as [|c s IH]; intros acc; [reflexivity|].
  cbn [PyStr.rev_app]. rewrite IH, (IH (String c EmptyString)), <- app_assoc_s. reflexivity.
Qed.

Lemma rev_String c s : PyStr.rev (String c s) = PyStr.rev s +:+ String c EmptyString.
Proof. unfold PyStr.rev at 1. cbn [PyStr.rev_app]. apply rev_app_spec. Qed.

Lemma rev_append (a b : string) : PyStr.rev (a +:+ b) = PyStr.rev b +:+ PyStr.rev a.
Proof.
  induction a as [|c a IH].
  - rewrite app_Empty. change (PyStr.rev EmptyString) with EmptyString. symmetry. apply app_nil_s.
  - rewrite app_String, !rev_String, IH. symmetry; apply app_assoc_s.
Qed.

Lemma rev_involutive s : PyStr.rev (PyStr.rev s) = s.
Proof.
  induction s as [|c s IH]; [reflexivity|].
  rewrite rev_String, rev_append, IH. reflexivity.
Qed.

Lemma contains_rev c s : PyStr.contains c (PyStr.rev s) = PyStr.contains c s.
Proof.
  induction s as [|d s IH]; [reflexivity|].
  rewrite rev_String, contains_app, IH. cbn [PyStr.contains].
  destruct (decide (c = d)); [rewrite orb_true_r; reflexivity|apply orb_false_r].
Qed.

Lemma truthy_rev s : PyStr.truthy (PyStr.rev s) = PyStr.truthy s.
Proof. destruct s as [|c s]; [reflexivity|]. rewrite rev_String. apply truthy_app_String. Qed.

Lemma substring_prefix (a b : string) : substring 0 (length a) (a +:+ b) = a.
Proof.
  induction a as [|c a IH]; [destruct b; reflexivity|].
  rewrite app_String. cbn [length substring]. rewrite IH. reflexivity.
Qed.

Lemma of_string_plain (s : string) :
  PyStr.contains slash s = false -> PyStr.truthy s = true -> s <> "." ->
  PurePath.of_string s = PurePath.mk EmptyString [s].
Proof.
  intros Hs Ht Hd. unfold PurePath.of_string.
  assert (Hr : PurePath.splitroot s = (EmptyString, s)).
  { destruct s as [|c s]; [discriminate Ht|]. cbn [PurePath.splitroot].
    cbn [PyStr.contains] in Hs. destruct (decide (slash = c)) as [|Hc]; [discriminate Hs|].
    rewrite decide_False by congruence. reflexivity. }
  rewrite Hr, split_no_sep by exact Hs. cbn [List.filter]. rewrite Ht.
  rewrite bool_decide_eq_false_2 by exact Hd. reflexivity.
Qed.

(** X22: for a plain file name "base.ext" (no '/', [ext] non-empty and
    without a dot), the commit names the lookup file and, next to it,
    "base.yml": only the last extension is replaced (so "users.csv.gz"
    commits "users.csv.yml"). *)
Theorem commit_files_yml (worker_group base ext : string) :
  PyStr.truthy base = true -> PyStr.truthy ext = true -> PyStr.contains dot ext = false ->
  PyStr.contains slash base = false -> PyStr.contains slash ext = false ->
  commit_files worker_group (base +:+ String dot ext)
  = Ok ["groups/" +:+ worker_group +:+ "/data/lookups/" +:+ (base +:+ String dot ext);
        "groups/" +:+ worker_group +:+ "/data/lookups/" +:+ (base +:+ ".yml")].
Proof.
  intros Hb He Hd Hsb Hse.
  assert (Hs : PurePath.suffix (base +:+ String dot ext) = String dot ext).
  { unfold PurePath.suffix.
    rewrite rev_append, rev_String, <- app_assoc_s, app_String, app_Empty.
    rewrite split_once_app by (rewrite contains_rev; exact Hd).
    rewrite !truthy_rev, He, Hb, rev_involutive. reflexivity. }
  assert (Hp : PurePath.of_string (base +:+ String dot ext)
               = PurePath.mk EmptyString [base +:+ String dot ext]).
  { apply of_string_plain.
    - rewrite contains_app, Hsb, contains_cons_neq, Hse by chr_neq. reflexivity.
    - apply truthy_app_String.
    - intros H. destruct base as [|c b]; [discriminate Hb|].
      destruct b; destruct ext; try discriminate He; discriminate H. }
  unfold commit_files. rewrite Hp.
  assert (Hw : PurePath.with_suffix (PurePath.mk EmptyString [base +:+ String dot ext]) ".yml"
               = Ok (PurePath.mk EmptyString [base +:+ ".yml"])).
  { unfold PurePath.with_suffix. cbn [PyStr.contains PyStr.truthy PyStr.startswith negb andb orb].
    rewrite (bool_decide_eq_false_2 (".yml" = ".")) by discriminate.
    cbn [orb PurePath.name PurePath.tail PurePath.root List.last removelast List.app].
    cbv zeta. rewrite truthy_app_String, Hs. cbn [negb PyStr.truthy].
    rewrite length_app.
    replace (length base + length (String dot ext) - length (String dot ext))%nat
      with (length base) by lia.
    rewrite substring_prefix. reflexivity. }
  rewrite Hw. cbn [mbind pyres_bind]. unfold PurePath.to_string.
  cbn [PurePath.root PurePath.tail PyStr.truthy PyStr.join].
  unfold PyStr.or. rewrite truthy_app_String. reflexivity.
Qed.

Lemma commit_files_yml_witness :
  PyStr.truthy "users.csv" = true /\ PyStr.truthy "gz" = true /\ PyStr.contains dot "gz" = false /\
  PyStr.contains slash "users.csv" = false /\ PyStr.contains slash "gz" = false /\
  commit_files "default" ("users.csv" +:+ String dot "gz")
  = Ok ["groups/default/data/lookups/users.csv.gz"; "groups/default/data/lookups/users.csv.yml"].
Proof.
  do 5 (split; [reflexivity|]).
  exact (commit_files_yml "default" "users.csv" "gz" eq_refl eq_refl eq_refl eq_refl eq_refl).
Defined.
